(** * Booking backend: the reservation engine of [app/main.py]

    A shallow embedding of the FastAPI handlers [list_bookings],
    [create_booking], [delete_booking] and [update_booking], of the helpers
    [overlap], [resources_dict], [dt_local_to_epoch] and
    [epoch_to_local_iso], and of the two pydantic request schemas.

    - The [bookings] table is a list of rows in rowid order; a handler is a
      function from the table to a response and the table after the request.
      Every request runs alone, from [SessionLocal()] to [db.close()]:
      handlers that interleave are not described here.
    - The id of a new row is the rowid SQLite assigns, one past the largest
      in the table.
    - An exception is a value of [exn]; a handler that raises returns
      [Raise e] together with the table as the last [db.commit()] left it.
    - Epoch seconds are [Z] (Python [int]).  Text is [string] over ASCII.
    - The Python builtins the handlers call ([str.strip], [str.split],
      [int], [datetime], [timedelta]) are written out in [Py] and
      [Datetime].  The time zone named by the [TZ] environment variable and
      the ISO-8601 reader [datetime.fromisoformat] are fields of [Env]. *)

From Stdlib Require Import ZArith List String Ascii Bool Lia.
Import ListNotations.
Open Scope string_scope.
Open Scope list_scope.
Open Scope Z_scope.

(** ** Python builtins on text *)

Module Py.

Definition ord (c : ascii) : Z := Z.of_nat (nat_of_ascii c).

(** The characters [str.strip()] removes: TAB..CR, FS..US and the space. *)
Definition isspace (c : ascii) : bool :=
  let n := ord c in
  ((9 <=? n) && (n <=? 13)) || ((28 <=? n) && (n <=? 32)).

(** The characters [int()] skips around a number: TAB..CR and the space. *)
Definition isspace_c (c : ascii) : bool :=
  let n := ord c in
  ((9 <=? n) && (n <=? 13)) || (n =? 32).

Fixpoint lstrip_by (sp : ascii -> bool) (s : string) : string :=
  match s with
  | String c t => if sp c then lstrip_by sp t else s
  | EmptyString => EmptyString
  end.

Fixpoint rstrip_by (sp : ascii -> bool) (s : string) : string :=
  match s with
  | String c t =>
      match rstrip_by sp t with
      | EmptyString => if sp c then EmptyString else String c EmptyString
      | t' => String c t'
      end
  | EmptyString => EmptyString
  end.

(** [s.strip()] *)
Definition strip (s : string) : string := rstrip_by isspace (lstrip_by isspace s).

(** [s.split(sep)] for a one-character separator: a field ends at every
    occurrence of [sep], so the result is never empty. *)
Fixpoint split (sep : ascii) (s : string) : list string :=
  match s with
  | EmptyString => [EmptyString]
  | String c t =>
      if Ascii.eqb c sep then EmptyString :: split sep t
      else match split sep t with
           | f :: fs => String c f :: fs
           | [] => [String c EmptyString]
           end
  end.

Definition digit (c : ascii) : option Z :=
  let n := ord c in
  if (48 <=? n) && (n <=? 57) then Some (n - 48) else None.

(** Digits of a decimal literal after its sign: at least one digit, single
    underscores allowed between digits.  [acc] is the value read so far,
    [prev] tells whether the previous character was a digit. *)
Fixpoint digits (acc : Z) (prev : bool) (s : string) : option Z :=
  match s with
  | EmptyString => if prev then Some acc else None
  | String c t =>
      match digit c with
      | Some d => digits (10 * acc + d) true t
      | None =>
          if Ascii.eqb c "_" && prev then
            match t with
            | String c' _ =>
                match digit c' with
                | Some _ => digits acc false t
                | None => None
                end
            | EmptyString => None
            end
          else None
      end
  end.

(** [int(s)] in base ten; [None] stands for [ValueError]. *)
Definition int (s : string) : option Z :=
  match rstrip_by isspace_c (lstrip_by isspace_c s) with
  | String "+" t => digits 0 false t
  | String "-" t => option_map Z.opp (digits 0 false t)
  | t => digits 0 false t
  end.

End Py.

(** ** Python's [datetime]: the proleptic Gregorian calendar

    A [datetime] in the zone [LOCAL_TZ] is its wall-clock reading, counted in
    seconds from 1970-01-01T00:00:00 on the same clock; [fold] is always 0. *)

Module Datetime.

Definition MINYEAR : Z := 1.
Definition MAXYEAR : Z := 9999.

Definition is_leap (y : Z) : bool :=
  (y mod 4 =? 0) && (negb (y mod 100 =? 0) || (y mod 400 =? 0)).

Definition days_in_month (y m : Z) : Z :=
  if m =? 2 then (if is_leap y then 29 else 28)
  else if (m =? 4) || (m =? 6) || (m =? 9) || (m =? 11) then 30
  else 31.

Definition DAYS_BEFORE_MONTH (m : Z) : Z :=
  nth (Z.to_nat m) [0; 0; 31; 59; 90; 120; 151; 181; 212; 243; 273; 304; 334] 0.

Definition days_before_year (y : Z) : Z :=
  let y1 := y - 1 in y1 * 365 + y1 / 4 - y1 / 100 + y1 / 400.

Definition days_before_month (y m : Z) : Z :=
  DAYS_BEFORE_MONTH m + (if (2 <? m) && is_leap y then 1 else 0).

Definition ymd2ord (y m d : Z) : Z :=
  days_before_year y + days_before_month y m + d.

(** [date(1970, 1, 1).toordinal()] *)
Definition EPOCH_ORD : Z := 719163.

(** The least and the greatest [datetime], at one-second resolution. *)
Definition MIN_SECONDS : Z := (ymd2ord MINYEAR 1 1 - EPOCH_ORD) * 86400.
Definition MAX_SECONDS : Z := (ymd2ord MAXYEAR 12 31 - EPOCH_ORD) * 86400 + 86399.

Definition in_range (w : Z) : bool := (MIN_SECONDS <=? w) && (w <=? MAX_SECONDS).

(** [datetime(y, m, d, hh, mm, 0, tzinfo=LOCAL_TZ)]; [None] is [ValueError]. *)
Definition datetime (y m d hh mm : Z) : option Z :=
  if (MINYEAR <=? y) && (y <=? MAXYEAR) && (1 <=? m) && (m <=? 12)
     && (1 <=? d) && (d <=? days_in_month y m)
     && (0 <=? hh) && (hh <=? 23) && (0 <=? mm) && (mm <=? 59)
  then Some ((ymd2ord y m d - EPOCH_ORD) * 86400 + hh * 3600 + mm * 60)
  else None.

(** [dt + timedelta(seconds=s)]: arithmetic on the wall clock, the zone is
    kept; [None] is [OverflowError]. *)
Definition add_seconds (w s : Z) : option Z :=
  if in_range (w + s) then Some (w + s) else None.

(** [_ord2ymd]: the calendar date with ordinal [n]. *)
Definition ord2ymd (n0 : Z) : Z * Z * Z :=
  let n := n0 - 1 in
  let n400 := n / 146097 in let n := n mod 146097 in
  let n100 := n / 36524 in let n := n mod 36524 in
  let n4 := n / 1461 in let n := n mod 1461 in
  let n1 := n / 365 in let n := n mod 365 in
  let year := n400 * 400 + 1 + n100 * 100 + n4 * 4 + n1 in
  if (n1 =? 4) || (n100 =? 4) then (year - 1, 12, 31)
  else
    let leapyear := (n1 =? 3) && (negb (n4 =? 24) || (n100 =? 3)) in
    let month := Z.shiftr (n + 50) 5 in
    let preceding := DAYS_BEFORE_MONTH month + (if (2 <? month) && leapyear then 1 else 0) in
    if n <? preceding then
      let month := month - 1 in
      let dim := if (month =? 2) && leapyear then 29
                 else if month =? 2 then 28
                 else if (month =? 4) || (month =? 6) || (month =? 9) || (month =? 11) then 30
                 else 31 in
      (year, month, n - (preceding - dim) + 1)
    else (year, month, n - preceding + 1).

Definition digit_char (d : Z) : ascii := ascii_of_nat (Z.to_nat (48 + d mod 10)).

(** ["%02d"] and ["%04d"] on the values a [datetime] holds. *)
Definition fmt2 (n : Z) : string :=
  String (digit_char (n / 10)) (String (digit_char n) EmptyString).
Definition fmt4 (n : Z) : string :=
  String (digit_char (n / 1000)) (String (digit_char (n / 100))
    (String (digit_char (n / 10)) (String (digit_char n) EmptyString))).

(** [dt.isoformat(timespec="seconds")] of the wall-clock reading [w] carrying
    the UTC offset [off]. *)
Definition isoformat (w off : Z) : string :=
  let '(y, m, d) := ord2ymd (w / 86400 + EPOCH_ORD) in
  let s := w mod 86400 in
  let a := Z.abs off in
  let sign := if off <? 0 then "-" else "+" in
  let secs := if a mod 60 =? 0 then EmptyString else String ":" (fmt2 (a mod 60)) in
  String.concat EmptyString
    [fmt4 y; "-"; fmt2 m; "-"; fmt2 d; "T";
     fmt2 (s / 3600); ":"; fmt2 (s mod 3600 / 60); ":"; fmt2 (s mod 60);
     sign; fmt2 (a / 3600); ":"; fmt2 (a mod 3600 / 60); secs].

End Datetime.

(** ** Exceptions and the error monad *)

Inductive exn : Type :=
| HTTPException (status_code : Z) (detail : string)
    (** raised by a handler; FastAPI answers with that status *)
| RequestValidationError
    (** the body breaks a [Field] bound of its pydantic schema: 422, the
        handler is not called *)
| Unhandled
    (** a [ValueError] or [OverflowError] of [datetime] that no handler
        catches: 500 *).

Inductive result (A : Type) : Type :=
| Ok (a : A)
| Raise (e : exn).
Arguments Ok {A} a.
Arguments Raise {A} e.

Definition bind {A B : Type} (r : result A) (k : A -> result B) : result B :=
  match r with
  | Ok a => k a
  | Raise e => Raise e
  end.

Notation "x <- r ;; k" := (bind r (fun x => k))
  (at level 61, r at next level, right associativity).
Notation "' pat <- r ;; k" := (bind r (fun x => match x with pat => k end))
  (at level 61, pat pattern, r at next level, right associativity).

(** An optional library result whose [None] is an exception nobody catches. *)
Definition unhandled {A : Type} (o : option A) : result A :=
  match o with
  | Some a => Ok a
  | None => Raise Unhandled
  end.

Fixpoint mapM {A B : Type} (f : A -> result B) (l : list A) : result (list B) :=
  match l with
  | [] => Ok []
  | a :: t => b <- f a ;; bs <- mapM f t ;; Ok (b :: bs)
  end.

(** The outcomes of the reservation engine, as the handlers raise them. *)
Definition UnknownResource : exn := HTTPException 404 "Unknown resource_id".
Definition OverlapOnCreate : exn := HTTPException 409 "Booking overlaps existing reservation".
Definition OverlapOnExtend : exn := HTTPException 409 "Extension overlaps another booking".
Definition InvalidInterval : exn := HTTPException 400 "New end must be after start".
Definition NotFound : exn := HTTPException 404 "Booking not found".
Definition BadDateTime : exn :=
  HTTPException 400 "Provide 'date' (YYYY-MM-DD) and 'start_time' (HH:MM)".
Definition BadEndIso : exn := HTTPException 400 "end_iso_local must be ISO-8601 with timezone".
Definition NothingToUpdate : exn := HTTPException 400 "Provide add_minutes or end_iso_local".

(** ** The table and the request schemas *)

Module Booking.
Record t : Type := mk {
  id : Z;
  resource_id : Z;
  name : string;
  phone : option string;
  start_utc : Z;
  end_utc : Z
}.
(** [row.end_utc = v] *)
Definition set_end_utc (r : t) (v : Z) : t :=
  mk (id r) (resource_id r) (name r) (phone r) (start_utc r) v.
End Booking.

(** The rows of [bookings], oldest rowid first. *)
Definition DB : Type := list Booking.t.

Module BookingOut.
Record t : Type := mk {
  id : Z;
  resource_id : Z;
  name : string;
  phone : option string;
  start_iso_local : string;
  end_iso_local : string
}.
End BookingOut.

Module CreateBookingIn.
Record t : Type := mk {
  resource_id : Z;
  name : string;
  phone : option string;
  date : string;
  start_time : string;
  duration_minutes : Z
}.
(** [duration_minutes: int = Field(ge=15, le=8*60)] *)
Definition validate (p : t) : bool :=
  (15 <=? duration_minutes p) && (duration_minutes p <=? 8 * 60).
End CreateBookingIn.

Module UpdateBookingIn.
Record t : Type := mk {
  end_iso_local : option string;
  add_minutes : option Z
}.
(** [add_minutes: Optional[int] = Field(default=None, ge=1, le=12*60)] *)
Definition validate (p : t) : bool :=
  match add_minutes p with
  | Some n => (1 <=? n) && (n <=? 12 * 60)
  | None => true
  end.
End UpdateBookingIn.

Module Resource.
Record t : Type := mk { id : Z; name : string }.
End Resource.

Definition RESOURCES : list Resource.t :=
  [ Resource.mk 1 "Pool 1";
    Resource.mk 2 "Pool 2";
    Resource.mk 3 "Pool 3";
    Resource.mk 4 "Shuffleboard 1" ].

(** [{r["id"]: r["name"] for r in RESOURCES}], as the list of its items. *)
Definition resources_dict : list (Z * string) :=
  map (fun r => (Resource.id r, Resource.name r)) RESOURCES.

(** [k in d] *)
Definition dict_mem (k : Z) (d : list (Z * string)) : bool :=
  existsb (fun kv => fst kv =? k) d.

Definition overlap (a1 a2 b1 b2 : Z) : bool := (a1 <? b2) && (a2 >? b1).

(** *** What SQLAlchemy and SQLite do with the table *)

(** [db.get(Booking, booking_id)] *)
Definition db_get (booking_id : Z) (db : DB) : option Booking.t :=
  find (fun r => Booking.id r =? booking_id) db.

(** The rowid SQLite gives the next row of an [INTEGER PRIMARY KEY] column:
    one more than the largest in the table, 1 in an empty table. *)
Definition next_id (db : DB) : Z :=
  1 + fold_right Z.max 0 (map Booking.id db).

(** [db.delete(row); db.commit()] *)
Definition db_delete (row : Booking.t) (db : DB) : DB :=
  filter (fun r => negb (Booking.id r =? Booking.id row)) db.

(** [row.end_utc = v; db.commit()]: the row with that primary key gets the
    new [end_utc]. *)
Definition db_set_end (row : Booking.t) (v : Z) (db : DB) : DB :=
  map (fun r => if Booking.id r =? Booking.id row then Booking.set_end_utc r v else r) db.

(** ** The environment: time zone and ISO reader *)

(** [ZoneInfo(LOCAL_TZ_NAME)].  [utcoffset w] is the offset, in seconds, the
    zone gives the wall-clock reading [w] with [fold=0]; [fromutc_offset u]
    is the offset in force at the instant [u]. *)
Record tzinfo : Type := {
  utcoffset : Z -> Z;
  fromutc_offset : Z -> Z
}.

(** [iso_to_epoch s] is
    [int(datetime.fromisoformat(s).astimezone(UTC).timestamp())], [None]
    when that raises. *)
Record Env : Type := {
  LOCAL_TZ : tzinfo;
  iso_to_epoch : string -> option Z
}.

(** ** Helpers and handlers *)

Section Handlers.

Variable env : Env.

(** [int(d.astimezone(UTC).timestamp())] for a [datetime] carrying
    [LOCAL_TZ]; both callers pass one, so the branch that attaches the zone
    to a naive value is never taken.  [astimezone] subtracts the offset and
    raises [OverflowError] when the result is no [datetime]. *)
Definition dt_local_to_epoch (d : Z) : result Z :=
  let u := d - utcoffset (LOCAL_TZ env) d in
  if Datetime.in_range u then Ok u else Raise Unhandled.

(** [datetime.fromtimestamp(ts, LOCAL_TZ).isoformat(timespec="seconds")] *)
Definition epoch_to_local_iso (ts : Z) : result string :=
  let off := fromutc_offset (LOCAL_TZ env) ts in
  if Datetime.in_range ts && Datetime.in_range (ts + off)
  then Ok (Datetime.isoformat (ts + off) off)
  else Raise Unhandled.

(** The [BookingOut(...)] every handler builds from a row. *)
Definition booking_out (r : Booking.t) : result BookingOut.t :=
  s <- epoch_to_local_iso (Booking.start_utc r) ;;
  e <- epoch_to_local_iso (Booking.end_utc r) ;;
  Ok (BookingOut.mk (Booking.id r) (Booking.resource_id r) (Booking.name r)
        (Booking.phone r) s e).

(** [if s:] on an optional string: [None] and the empty string are both
    false. *)
Definition truthy (o : option string) : option string :=
  match o with
  | Some EmptyString => None
  | other => other
  end.

(** *** [GET /api/bookings] *)

(** [f_ts] and [t_ts]: a bound that is absent or empty stays [None]. *)
Definition bound_ts (q : option string) : result (option Z) :=
  match truthy q with
  | Some s => ts <- unhandled (iso_to_epoch env s) ;; Ok (Some ts)
  | None => Ok None
  end.

(** The loop over [rows]: the two [continue] tests, then [out.append]. *)
Fixpoint list_rows (f_ts t_ts : option Z) (rows : list Booking.t)
  : result (list BookingOut.t) :=
  match rows with
  | [] => Ok []
  | r :: rest =>
      if match f_ts with Some f => Booking.end_utc r <=? f | None => false end
      then list_rows f_ts t_ts rest
      else if match t_ts with Some t => Booking.start_utc r >=? t | None => false end
      then list_rows f_ts t_ts rest
      else o <- booking_out r ;; os <- list_rows f_ts t_ts rest ;; Ok (o :: os)
  end.

Definition list_bookings (from_ to : option string) (db : DB)
  : result (list BookingOut.t) :=
  f_ts <- bound_ts from_ ;;
  t_ts <- bound_ts to ;;
  list_rows f_ts t_ts db.

(** *** [POST /api/bookings] *)

(** The [try] block: both fields split and converted, anything else is the
    400 of the [except] clause. *)
Definition parse_date_time (p : CreateBookingIn.t) : result (Z * Z * Z * Z * Z) :=
  match map Py.int (Py.split "-" (CreateBookingIn.date p)),
        map Py.int (Py.split ":" (CreateBookingIn.start_time p)) with
  | [Some y; Some m; Some d], [Some sh; Some sm] => Ok (y, m, d, sh, sm)
  | _, _ => Raise BadDateTime
  end.

(** [start_ts] and [end_ts], up to the resource check. *)
Definition start_end_ts (p : CreateBookingIn.t) : result (Z * Z) :=
  '(y, m, d, sh, sm) <- parse_date_time p ;;
  start_local <- unhandled (Datetime.datetime y m d sh sm) ;;
  end_local <- unhandled (Datetime.add_seconds start_local
                            (CreateBookingIn.duration_minutes p * 60)) ;;
  start_ts <- dt_local_to_epoch start_local ;;
  end_ts <- dt_local_to_epoch end_local ;;
  Ok (start_ts, end_ts).

(** [(payload.phone or '').strip() or None] *)
Definition clean_phone (o : option string) : option string :=
  truthy (Some (Py.strip (match o with Some s => s | None => EmptyString end))).

(** The row [create_booking] builds, with the rowid the insert gives it. *)
Definition new_row (p : CreateBookingIn.t) (start_ts end_ts : Z) (db : DB) : Booking.t :=
  Booking.mk (next_id db)
    (CreateBookingIn.resource_id p)
    (Py.strip (CreateBookingIn.name p))
    (clean_phone (CreateBookingIn.phone p))
    start_ts end_ts.

Definition create_booking (payload : CreateBookingIn.t) (db : DB)
  : result BookingOut.t * DB :=
  match start_end_ts payload with
  | Raise e => (Raise e, db)
  | Ok (start_ts, end_ts) =>
      if negb (dict_mem (CreateBookingIn.resource_id payload) resources_dict)
      then (Raise UnknownResource, db)
      else
        let existing :=
          filter (fun r => Booking.resource_id r =? CreateBookingIn.resource_id payload) db in
        if existsb (fun r => overlap start_ts end_ts (Booking.start_utc r) (Booking.end_utc r))
             existing
        then (Raise OverlapOnCreate, db)
        else
          let row := new_row payload start_ts end_ts db in
          (booking_out row, db ++ [row])
  end.

(** *** [DELETE /api/bookings/{booking_id}] *)

Definition delete_booking (booking_id : Z) (db : DB) : result string * DB :=
  match db_get booking_id db with
  | None => (Raise NotFound, db)
  | Some row => (Ok "ok", db_delete row db)
  end.

(** *** [PUT /api/bookings/{booking_id}] *)

(** [new_end_ts], the [if]/[elif]/[else] under "Beregn ny slut". *)
Definition new_end_ts (payload : UpdateBookingIn.t) (row : Booking.t) : result Z :=
  match UpdateBookingIn.add_minutes payload with
  | Some n => Ok (Booking.end_utc row + n * 60)
  | None =>
      match truthy (UpdateBookingIn.end_iso_local payload) with
      | Some s =>
          match iso_to_epoch env s with
          | Some ts => Ok ts
          | None => Raise BadEndIso
          end
      | None => Raise NothingToUpdate
      end
  end.

Definition update_booking (booking_id : Z) (payload : UpdateBookingIn.t) (db : DB)
  : result BookingOut.t * DB :=
  match db_get booking_id db with
  | None => (Raise NotFound, db)
  | Some row =>
      match new_end_ts payload row with
      | Raise e => (Raise e, db)
      | Ok new_end =>
          if new_end <=? Booking.start_utc row
          then (Raise InvalidInterval, db)
          else
            let existing :=
              filter (fun r => (Booking.resource_id r =? Booking.resource_id row)
                               && negb (Booking.id r =? Booking.id row)) db in
            if existsb (fun r => overlap (Booking.start_utc row) new_end
                                   (Booking.start_utc r) (Booking.end_utc r)) existing
            then (Raise OverlapOnExtend, db)
            else
              (booking_out (Booking.set_end_utc row new_end),
               db_set_end row new_end db)
      end
  end.

(** *** The service: schema validation, then the handler *)

Inductive request : Type :=
| GET_bookings (from_ to : option string)
| POST_bookings (payload : CreateBookingIn.t)
| DELETE_booking (booking_id : Z)
| PUT_booking (booking_id : Z) (payload : UpdateBookingIn.t).

Definition post_bookings (payload : CreateBookingIn.t) (db : DB)
  : result BookingOut.t * DB :=
  if CreateBookingIn.validate payload then create_booking payload db
  else (Raise RequestValidationError, db).

Definition put_booking (booking_id : Z) (payload : UpdateBookingIn.t) (db : DB)
  : result BookingOut.t * DB :=
  if UpdateBookingIn.validate payload then update_booking booking_id payload db
  else (Raise RequestValidationError, db).

(** The table after a request. *)
Definition serve (rq : request) (db : DB) : DB :=
  match rq with
  | GET_bookings _ _ => db
  | POST_bookings p => snd (post_bookings p db)
  | DELETE_booking i => snd (delete_booking i db)
  | PUT_booking i p => snd (put_booking i p db)
  end.

(** The tables the service can hold, started on an empty database file. *)
Inductive reachable : DB -> Prop :=
| reachable_empty : reachable []
| reachable_serve : forall rq db, reachable db -> reachable (serve rq db).

End Handlers.

(** ** A concrete environment: the default zone in 2025 *)

Module Copenhagen.

(** [Europe/Copenhagen], the default of [LOCAL_TZ_NAME], between its
    transitions of 27 October 2024 and 29 March 2026: CET (+01:00), CEST
    (+02:00) from 30 March 2025 01:00 UTC to 26 October 2025 01:00 UTC.  On
    the wall clock with [fold=0] the skipped hour 02:00-03:00 of 30 March
    still reads +01:00 and the repeated hour of 26 October reads +02:00. *)
Definition tz : tzinfo := {|
  utcoffset := fun w =>
    if w <? 1743303600 then 3600 else if w <? 1761447600 then 7200 else 3600;
  fromutc_offset := fun u =>
    if u <? 1743296400 then 3600 else if u <? 1761440400 then 7200 else 3600
|}.

(** All characters are decimal digits: the value. *)
Fixpoint number (acc : Z) (s : string) : option Z :=
  match s with
  | EmptyString => Some acc
  | String c t =>
      match Py.digit c with
      | Some d => number (10 * acc + d) t
      | None => None
      end
  end.

(** [datetime.fromisoformat] followed by the conversion to epoch seconds, on
    the layout [isoformat(timespec="seconds")] writes for an aware value,
    [YYYY-MM-DDTHH:MM:SS+HH:MM]; other layouts are left out ([None]). *)
Definition fromisoformat_epoch (s : string) : option Z :=
  let num i n := number 0 (substring i n s) in
  let sep i c := String.eqb (substring i 1 s) c in
  if negb ((String.length s =? 25)%nat && sep 4%nat "-" && sep 7%nat "-" && sep 10%nat "T"
           && sep 13%nat ":" && sep 16%nat ":" && sep 22%nat ":"
           && (sep 19%nat "+" || sep 19%nat "-"))
  then None
  else
    match num 0%nat 4%nat, num 5%nat 2%nat, num 8%nat 2%nat,
          num 11%nat 2%nat, num 14%nat 2%nat, num 17%nat 2%nat,
          num 20%nat 2%nat, num 23%nat 2%nat with
    | Some y, Some m, Some d, Some hh, Some mm, Some ss, Some oh, Some om =>
        match Datetime.datetime y m d hh mm with
        | Some w =>
            let off := (if sep 19%nat "-" then -1 else 1) * (oh * 3600 + om * 60) in
            if (ss <=? 59) && (oh <=? 23) && (om <=? 59)
               && Datetime.in_range (w + ss - off)
            then Some (w + ss - off) else None
        | None => None
        end
    | _, _, _, _, _, _, _, _ => None
    end.

Definition env : Env := {| LOCAL_TZ := tz; iso_to_epoch := fromisoformat_epoch |}.

End Copenhagen.

(** ** The store invariants *)

(** Primary key: no two rows share an id. *)
Definition distinct_ids (db : DB) : Prop := NoDup (map Booking.id db).

(** No two rows of one resource with different ids overlap. *)
Definition no_overlap (db : DB) : Prop :=
  forall a b, In a db -> In b db ->
    Booking.id a <> Booking.id b ->
    Booking.resource_id a = Booking.resource_id b ->
    overlap (Booking.start_utc a) (Booking.end_utc a)
            (Booking.start_utc b) (Booking.end_utc b) = false.

Definition store_inv (db : DB) : Prop := distinct_ids db /\ no_overlap db.


(** The row [r'] is [r] with at most [end_utc] changed, and is [r] itself
    unless [r] has the id [booking_id]. *)
Definition only_end_changed (booking_id : Z) (r r' : Booking.t) : Prop :=
  Booking.id r' = Booking.id r
  /\ Booking.resource_id r' = Booking.resource_id r
  /\ Booking.name r' = Booking.name r
  /\ Booking.phone r' = Booking.phone r
  /\ Booking.start_utc r' = Booking.start_utc r
  /\ (Booking.id r <> booking_id -> r' = r).

(** The rows a listing with bounds [X] and [Y] is to show: [end_utc > X]
    when there is a lower bound, [start_utc < Y] when there is an upper one. *)
Definition selected (X Y : option Z) (r : Booking.t) : bool :=
  match X with Some x => Booking.end_utc r >? x | None => true end
  && match Y with Some y => Booking.start_utc r <? y | None => true end.

(** The query parameter [q] gives the bound [X]: a non-empty string that
    [fromisoformat] reads as the instant [x], or no bound when the parameter
    is left out or empty. *)
Definition reads (env : Env) (q : option string) (X : option Z) : Prop :=
  match X with
  | Some x => exists s, q = Some s /\ s <> EmptyString /\ iso_to_epoch env s = Some x
  | None => q = None \/ q = Some EmptyString
  end.

(** Every stored booking ends after it starts. *)
Definition proper_intervals (db : DB) : Prop :=
  forall r, In r db -> Booking.start_utc r < Booking.end_utc r.

(** The zone has one offset all year round. *)
Definition fixed_offset (env : Env) : Prop :=
  forall w w', utcoffset (LOCAL_TZ env) w = utcoffset (LOCAL_TZ env) w'.

(** ** A worked day: two back-to-back bookings of Pool 1 *)

Module Scenario.

Definition post_ann : CreateBookingIn.t :=
  CreateBookingIn.mk 1 " Ann " (Some " ") "2025-01-01" "10:00" 60.
Definition post_bo : CreateBookingIn.t :=
  CreateBookingIn.mk 1 "Bo" (Some "12 34") "2025-01-01" "11:00" 30.
Definition post_blank : CreateBookingIn.t :=
  CreateBookingIn.mk 1 "   " None "2025-01-01" "10:00" 60.
Definition post_nowhere : CreateBookingIn.t :=
  CreateBookingIn.mk 9 "Ida" None "2025-01-01" "10:00" 60.

(** 10:00-11:00 and 11:00-11:30 local time on 1 January 2025. *)
Definition ann : Booking.t := Booking.mk 1 1 "Ann" None 1735722000 1735725600.
Definition bo : Booking.t := Booking.mk 2 1 "Bo" (Some "12 34") 1735725600 1735727400.
Definition two_bookings : DB := [ann; bo].

Definition bo_out : BookingOut.t :=
  BookingOut.mk 2 1 "Bo" (Some "12 34")
    "2025-01-01T11:00:00+01:00" "2025-01-01T11:30:00+01:00".
Definition bo_longer_out : BookingOut.t :=
  BookingOut.mk 2 1 "Bo" (Some "12 34")
    "2025-01-01T11:00:00+01:00" "2025-01-01T12:00:00+01:00".

End Scenario.

(** ** A zone without offset changes *)

Module Utc.

(** [TZ=UTC]: the offset is zero all year. *)
Definition tz : tzinfo := {| utcoffset := fun _ => 0; fromutc_offset := fun _ => 0 |}.

Definition env : Env := {| LOCAL_TZ := tz; iso_to_epoch := Copenhagen.fromisoformat_epoch |}.

End Utc.

(** ** What every stored row satisfies *)

(** The id is a rowid and the resource is one of [RESOURCES]. *)
Definition row_keys_ok (r : Booking.t) : Prop :=
  1 <= Booking.id r /\ dict_mem (Booking.resource_id r) resources_dict = true.

(** Name and phone are stored trimmed, and a phone is never the empty
    string. *)
Definition row_text_ok (r : Booking.t) : Prop :=
  Py.strip (Booking.name r) = Booking.name r
  /\ forall s, Booking.phone r = Some s -> s <> EmptyString /\ Py.strip s = s.

(** A date and a time of day in the layout the handler asks for,
    [YYYY-MM-DD] and [HH:MM]. *)
Definition date_text (y m d : Z) : string :=
  String.concat "-" [Datetime.fmt4 y; Datetime.fmt2 m; Datetime.fmt2 d].
Definition time_text (hh mm : Z) : string :=
  String.concat ":" [Datetime.fmt2 hh; Datetime.fmt2 mm].

(** [int] reads the two-digit text of [n] back as [n], and the text holds
    neither separator. *)
Definition two_digits_ok (n : Z) : bool :=
  match Py.int (Datetime.fmt2 n) with Some v => v =? n | None => false end
  && match Py.split "-" (Datetime.fmt2 n) with
     | [f] => String.eqb f (Datetime.fmt2 n)
     | _ => false
     end
  && match Py.split ":" (Datetime.fmt2 n) with
     | [f] => String.eqb f (Datetime.fmt2 n)
     | _ => false
     end.

(** The same for the four-digit text of a year. *)
Definition four_digits_ok (n : Z) : bool :=
  match Py.int (Datetime.fmt4 n) with Some v => v =? n | None => false end
  && match Py.split "-" (Datetime.fmt4 n) with
     | [f] => String.eqb f (Datetime.fmt4 n)
     | _ => false
     end.

(** ** The worked day in the zone without offset changes *)

Module ScenarioUtc.

(** 10:00-11:00 UTC on 1 January 2025, as [TZ=UTC] stores it. *)
Definition ann : Booking.t := Booking.mk 1 1 "Ann" None 1735725600 1735729200.
Definition ann_out : BookingOut.t :=
  BookingOut.mk 1 1 "Ann" None "2025-01-01T10:00:00+00:00" "2025-01-01T11:00:00+00:00".

End ScenarioUtc.

(** The responses of the worked day that the claims did not need. *)
Module ScenarioOut.

Definition ann_out : BookingOut.t :=
  BookingOut.mk 1 1 "Ann" None "2025-01-01T10:00:00+01:00" "2025-01-01T11:00:00+01:00".
Definition bo_longer : Booking.t :=
  Booking.mk 2 1 "Bo" (Some "12 34") 1735725600 1735729200.
Definition bo_shorter : Booking.t :=
  Booking.mk 2 1 "Bo" (Some "12 34") 1735725600 1735726500.
Definition extend_30 : UpdateBookingIn.t := UpdateBookingIn.mk None (Some 30).
Definition end_1115 : UpdateBookingIn.t :=
  UpdateBookingIn.mk (Some "2025-01-01T11:15:00+01:00") None.

End ScenarioOut.

(** ** The library functions on examples *)

Example strip_ex : Py.strip "  Ann Lee	" = "Ann Lee".
Proof. reflexivity. Qed.
Example split_ex : Py.split "-" "2025-01-01" = ["2025"; "01"; "01"].
Proof. reflexivity. Qed.
Example split_ex2 : Py.split "-" "-1--" = [EmptyString; "1"; EmptyString; EmptyString].
Proof. reflexivity. Qed.
Example int_ex : map Py.int [EmptyString; " 12 "; "+5"; "1_0"; "_1"; "1__0"; "1_"; "007"; "- 5"; "+"; "1.0"]
  = [None; Some 12; Some 5; Some 10; None; None; None; Some 7; None; None; None].
Proof. reflexivity. Qed.
Example datetime_ex : Datetime.datetime 2025 1 1 10 0 = Some (1735722000 + 3600).
Proof. reflexivity. Qed.
Example isoformat_ex : Datetime.isoformat (1743298200 + 7200) 7200 = "2025-03-30T03:30:00+02:00".
Proof. reflexivity. Qed.

(** ** Lemmas on [overlap] and on the table *)

Lemma overlap_spec a1 a2 b1 b2 :
  overlap a1 a2 b1 b2 = true <-> a1 < b2 /\ a2 > b1.
Proof.
  unfold overlap. rewrite andb_true_iff, Z.ltb_lt, Z.gtb_gt. tauto.
Qed.

Lemma overlap_false a1 a2 b1 b2 :
  overlap a1 a2 b1 b2 = false <-> ~ (a1 < b2 /\ a2 > b1).
Proof.
  rewrite <- overlap_spec. destruct (overlap a1 a2 b1 b2); split; intro H;
    try reflexivity; try discriminate; try (intros E; discriminate).
  exfalso; apply H; reflexivity.
Qed.

Lemma overlap_sym a1 a2 b1 b2 : overlap a1 a2 b1 b2 = overlap b1 b2 a1 a2.
Proof.
  destruct (overlap b1 b2 a1 a2) eqn:E.
  - apply overlap_spec in E. apply overlap_spec. lia.
  - apply overlap_false in E. apply overlap_false. lia.
Qed.

Lemma db_get_some booking_id db row :
  db_get booking_id db = Some row -> In row db /\ Booking.id row = booking_id.
Proof.
  unfold db_get. intros H. apply find_some in H. destruct H as [H1 H2].
  split; [assumption | now apply Z.eqb_eq].
Qed.

Lemma max_id_above db r :
  In r db -> Booking.id r <= fold_right Z.max 0 (map Booking.id db).
Proof.
  induction db as [|x db IH]; cbn [map fold_right In]; [contradiction|].
  intros [->|H]; [|specialize (IH H)]; lia.
Qed.

Lemma next_id_above db r : In r db -> Booking.id r < next_id db.
Proof.
  intros H. apply max_id_above in H. unfold next_id. lia.
Qed.

Lemma next_id_fresh db : ~ In (next_id db) (map Booking.id db).
Proof.
  intros H. apply in_map_iff in H. destruct H as [r [E H]].
  apply next_id_above in H. lia.
Qed.

Lemma same_id_same_row db a b :
  distinct_ids db -> In a db -> In b db -> Booking.id a = Booking.id b -> a = b.
Proof.
  unfold distinct_ids. induction db as [|x db IH]; simpl; [contradiction|].
  intros ND Ha Hb E. inversion ND as [|? ? Hx ND']; subst.
  destruct Ha as [->|Ha], Hb as [->|Hb]; try reflexivity.
  - exfalso. apply Hx. rewrite E. now apply in_map.
  - exfalso. apply Hx. rewrite <- E. now apply in_map.
  - now apply IH.
Qed.

Lemma NoDup_snoc (l : list Z) x : NoDup l -> ~ In x l -> NoDup (l ++ [x]).
Proof.
  induction l as [|y l IH]; simpl; intros ND Hx.
  - constructor; [intros [] | constructor].
  - inversion ND as [|? ? Hy ND']; subst. constructor.
    + rewrite in_app_iff. simpl. intros [H|[H|[]]]; [now apply Hy|].
      apply Hx. now left.
    + apply IH; [assumption|]. intros H. apply Hx. now right.
Qed.

Lemma distinct_ids_filter f db : distinct_ids db -> distinct_ids (filter f db).
Proof.
  unfold distinct_ids. induction db as [|x db IH]; simpl; [trivial|].
  intros ND. inversion ND as [|? ? Hx ND']; subst.
  destruct (f x); simpl; [|now apply IH].
  constructor; [|now apply IH].
  intros H. apply Hx. apply in_map_iff in H. destruct H as [r [E H]].
  apply filter_In in H. apply in_map_iff. exists r. tauto.
Qed.

Lemma db_set_end_ids row v db : map Booking.id (db_set_end row v db) = map Booking.id db.
Proof.
  unfold db_set_end. rewrite map_map. apply map_ext. intros r.
  destruct (Booking.id r =? Booking.id row); reflexivity.
Qed.

(** The scan of [existing] finds nothing: no row of the resource, the
    excluded ones apart, overlaps the candidate. *)
Lemma scan_clear (keep : Booking.t -> bool) s e db :
  existsb (fun r => overlap s e (Booking.start_utc r) (Booking.end_utc r))
    (filter keep db) = false ->
  forall r, In r db -> keep r = true ->
    overlap s e (Booking.start_utc r) (Booking.end_utc r) = false.
Proof.
  intros H r Hr Hk.
  destruct (overlap s e (Booking.start_utc r) (Booking.end_utc r)) eqn:E; [|reflexivity].
  assert (X : existsb (fun r => overlap s e (Booking.start_utc r) (Booking.end_utc r))
                (filter keep db) = true).
  { apply existsb_exists. exists r. split; [apply filter_In; tauto | assumption]. }
  congruence.
Qed.

Lemma scan_hit (keep : Booking.t -> bool) s e db r :
  In r db -> keep r = true ->
  overlap s e (Booking.start_utc r) (Booking.end_utc r) = true ->
  existsb (fun r => overlap s e (Booking.start_utc r) (Booking.end_utc r))
    (filter keep db) = true.
Proof.
  intros Hr Hk Ho. apply existsb_exists. exists r.
  split; [apply filter_In; tauto | assumption].
Qed.

(** ** Each handler keeps the invariants *)

Section Preservation.

Variable env : Env.

Lemma create_booking_inv payload db :
  store_inv db -> store_inv (snd (create_booking env payload db)).
Proof.
  intros [ND NO]. unfold create_booking.
  destruct (start_end_ts env payload) as [[s e]|err]; [|split; assumption].
  destruct (negb (dict_mem _ _)); [split; assumption|].
  match goal with |- context [existsb ?f ?l] => destruct (existsb f l) eqn:Scan end;
    [split; assumption|].
  simpl snd. set (row := new_row payload s e db).
  assert (Free : forall r, In r db -> Booking.resource_id r = Booking.resource_id row ->
            overlap s e (Booking.start_utc r) (Booking.end_utc r) = false).
  { intros r Hr Hres. apply (scan_clear _ _ _ _ Scan r Hr).
    apply Z.eqb_eq. exact Hres. }
  split.
  - unfold distinct_ids. rewrite map_app. apply NoDup_snoc; [exact ND|].
    apply next_id_fresh.
  - intros a b Ha Hb Hid Hres.
    apply in_app_iff in Ha. apply in_app_iff in Hb. simpl in Ha, Hb.
    destruct Ha as [Ha|[<-|[]]], Hb as [Hb|[<-|[]]].
    + now apply NO.
    + rewrite overlap_sym. now apply Free.
    + apply Free; [assumption | now symmetry].
    + congruence.
Qed.

Lemma delete_booking_inv booking_id db :
  store_inv db -> store_inv (snd (delete_booking booking_id db)).
Proof.
  intros [ND NO]. unfold delete_booking.
  destruct (db_get booking_id db) as [row|]; [|split; assumption].
  simpl. split.
  - now apply distinct_ids_filter.
  - intros a b Ha Hb. apply filter_In in Ha. apply filter_In in Hb.
    apply NO; tauto.
Qed.

Lemma update_booking_inv booking_id payload db :
  store_inv db -> store_inv (snd (update_booking env booking_id payload db)).
Proof.
  intros [ND NO]. unfold update_booking.
  destruct (db_get booking_id db) as [row|] eqn:G; [|split; assumption].
  destruct (new_end_ts env payload row) as [ne|err]; [|split; assumption].
  destruct (ne <=? Booking.start_utc row); [split; assumption|].
  match goal with |- context [existsb ?f ?l] => destruct (existsb f l) eqn:Scan end;
    [split; assumption|].
  simpl snd. apply db_get_some in G. destruct G as [Hrow _].
  assert (Free : forall r, In r db -> Booking.resource_id r = Booking.resource_id row ->
            Booking.id r <> Booking.id row ->
            overlap (Booking.start_utc row) ne (Booking.start_utc r) (Booking.end_utc r) = false).
  { intros r Hr Hres Hid. apply (scan_clear _ _ _ _ Scan r Hr).
    apply andb_true_iff. split; [now apply Z.eqb_eq|].
    apply negb_true_iff. now apply Z.eqb_neq. }
  split.
  - unfold distinct_ids. rewrite db_set_end_ids. exact ND.
  - intros a' b' Ha Hb. unfold db_set_end in Ha, Hb.
    apply in_map_iff in Ha. apply in_map_iff in Hb.
    destruct Ha as [a [<- Ha]], Hb as [b [<- Hb]].
    destruct (Booking.id a =? Booking.id row) eqn:Ea,
             (Booking.id b =? Booking.id row) eqn:Eb; simpl.
    + apply Z.eqb_eq in Ea, Eb. intros Hid. exfalso. apply Hid. congruence.
    + apply Z.eqb_eq in Ea. apply Z.eqb_neq in Eb. intros _ Hres.
      assert (a = row) by (apply (same_id_same_row db); assumption). subst a.
      apply Free; [assumption | now symmetry | assumption].
    + apply Z.eqb_neq in Ea. apply Z.eqb_eq in Eb. intros _ Hres.
      assert (b = row) by (apply (same_id_same_row db); assumption). subst b.
      rewrite overlap_sym. apply Free; assumption.
    + now apply NO.
Qed.

Lemma serve_inv rq db : store_inv db -> store_inv (serve env rq db).
Proof.
  intros H. destruct rq as [f t|p|i|i p]; simpl.
  - exact H.
  - unfold post_bookings. destruct (CreateBookingIn.validate p);
      [now apply create_booking_inv | exact H].
  - now apply delete_booking_inv.
  - unfold put_booking. destruct (UpdateBookingIn.validate p);
      [now apply update_booking_inv | exact H].
Qed.

Lemma reachable_inv db : reachable env db -> store_inv db.
Proof.
  induction 1 as [|rq db _ IH].
  - split; [constructor | intros a b []].
  - now apply serve_inv.
Qed.

End Preservation.

(** ** The no-overlap invariant *)



(** ** Create *)

Lemma Booking_eq_dec (a b : Booking.t) : {a = b} + {a <> b}.
Proof.
  repeat decide equality.
Qed.

(** What [create_booking] does once the times are computed, the resource is
    known and the scan finds nothing. *)
Lemma create_booking_stores env p db s e :
  start_end_ts env p = Ok (s, e) ->
  dict_mem (CreateBookingIn.resource_id p) resources_dict = true ->
  (forall r, In r db -> Booking.resource_id r = CreateBookingIn.resource_id p ->
     overlap s e (Booking.start_utc r) (Booking.end_utc r) = false) ->
  create_booking env p db
  = (booking_out env (new_row p s e db), db ++ [new_row p s e db]).
Proof.
  intros Ht Hres Hfree. unfold create_booking. rewrite Ht, Hres. simpl negb. cbv iota.
  match goal with |- context [existsb ?f ?l] => destruct (existsb f l) eqn:Scan end;
    [|reflexivity].
  apply existsb_exists in Scan. destruct Scan as [r [Hr Ho]].
  apply filter_In in Hr. destruct Hr as [Hr Hk]. apply Z.eqb_eq in Hk.
  rewrite (Hfree r Hr Hk) in Ho. discriminate.
Qed.

(** C2. [overlap] is the half-open test [a1 < b2 /\ a2 > b1]; two intervals
    that only touch do not overlap; and a booking that starts exactly where a
    stored booking of the same resource ends is created, provided no other
    booking of the resource overlaps it. *)
Theorem overlap_half_open_back_to_back :
  (forall a1 a2 b1 b2, overlap a1 a2 b1 b2 = true <-> a1 < b2 /\ a2 > b1)
  /\ (forall a1 a2 b1 b2, a2 = b1 \/ b2 = a1 -> overlap a1 a2 b1 b2 = false)
  /\ (forall env payload db A start_ts end_ts out,
        start_end_ts env payload = Ok (start_ts, end_ts) ->
        dict_mem (CreateBookingIn.resource_id payload) resources_dict = true ->
        In A db ->
        Booking.resource_id A = CreateBookingIn.resource_id payload ->
        start_ts = Booking.end_utc A ->
        (forall r, In r db -> r <> A ->
           Booking.resource_id r = CreateBookingIn.resource_id payload ->
           overlap start_ts end_ts (Booking.start_utc r) (Booking.end_utc r) = false) ->
        booking_out env (new_row payload start_ts end_ts db) = Ok out ->
        create_booking env payload db
        = (Ok out, db ++ [new_row payload start_ts end_ts db])).
Proof.
  split; [exact overlap_spec | split].
  - intros a1 a2 b1 b2 H. apply overlap_false. lia.
  - intros env p db A s e out Ht Hres HA HAres Hs Hothers Hout.
    rewrite (create_booking_stores env p db s e Ht Hres), Hout; [reflexivity|].
    intros r Hr Hk. destruct (Booking_eq_dec r A) as [->|Hne].
    + apply overlap_false. lia.
    + now apply Hothers.
Qed.

(** C3. At the spring-forward night of the default zone the handler stores a
    booking whose end lies before its start: 02:30 local time does not exist
    and reads 01:30 UTC, 45 minutes later the wall clock shows 03:15, which is
    01:15 UTC.  The request passes the schema and nothing is raised. *)
Theorem create_booking_dst_gap_end_before_start :
  let payload := CreateBookingIn.mk 1 "Gry" None "2025-03-30" "02:30" 45 in
  CreateBookingIn.validate payload = true
  /\ start_end_ts Copenhagen.env payload = Ok (1743298200, 1743297300)
  /\ post_bookings Copenhagen.env payload []
     = (Ok (BookingOut.mk 1 1 "Gry" None
              "2025-03-30T03:30:00+02:00" "2025-03-30T03:15:00+02:00"),
        [Booking.mk 1 1 "Gry" None 1743298200 1743297300])
  /\ (forall row, In row (snd (post_bookings Copenhagen.env payload [])) ->
        Booking.end_utc row < Booking.start_utc row).
Proof.
  split; [reflexivity | split; [vm_compute; reflexivity | split]].
  - vm_compute. reflexivity.
  - intros row [<-|[]]. vm_compute. reflexivity.
Qed.

(** Against C4 as stated: a name that is blank after trimming does not stop
    [create_booking]; the booking is stored under the empty name. *)
Lemma blank_name_is_stored :
  let payload := CreateBookingIn.mk 1 "   " None "2025-01-01" "10:00" 60 in
  Py.strip (CreateBookingIn.name payload) = EmptyString
  /\ post_bookings Copenhagen.env payload []
     = (Ok (BookingOut.mk 1 1 EmptyString None
              "2025-01-01T10:00:00+01:00" "2025-01-01T11:00:00+01:00"),
        [Booking.mk 1 1 EmptyString None 1735722000 1735725600])
  /\ ~ (forall env payload db,
          Py.strip (CreateBookingIn.name payload) = EmptyString ->
          exists e, create_booking env payload db = (Raise e, db)).
Proof.
  split; [reflexivity | split; [vm_compute; reflexivity|]].
  intros H.
  destruct (H Copenhagen.env (CreateBookingIn.mk 1 "   " None "2025-01-01" "10:00" 60) []
              eq_refl) as [e He].
  vm_compute in He. discriminate.
Qed.

(** C4, as the handler has it.  The name is trimmed and never tested: a
    create call whose name is blank after trimming, whose date and time are
    read, whose resource is in the catalog and whose interval overlaps no
    booking of that resource stores the booking, with the empty name. *)
Theorem create_booking_blank_name_not_rejected env payload db start_ts end_ts :
  Py.strip (CreateBookingIn.name payload) = EmptyString ->
  start_end_ts env payload = Ok (start_ts, end_ts) ->
  dict_mem (CreateBookingIn.resource_id payload) resources_dict = true ->
  (forall r, In r db -> Booking.resource_id r = CreateBookingIn.resource_id payload ->
     overlap start_ts end_ts (Booking.start_utc r) (Booking.end_utc r) = false) ->
  exists row,
    Booking.name row = EmptyString
    /\ Booking.start_utc row = start_ts /\ Booking.end_utc row = end_ts
    /\ Booking.resource_id row = CreateBookingIn.resource_id payload
    /\ create_booking env payload db = (booking_out env row, db ++ [row]).
Proof.
  intros Hname Ht Hres Hfree. exists (new_row payload start_ts end_ts db).
  rewrite (create_booking_stores env payload db start_ts end_ts Ht Hres Hfree).
  unfold new_row. simpl. rewrite Hname. repeat split.
Qed.



(** ** Extend *)

(** C5. An extend call on a stored booking whose new end makes it overlap
    another booking of the same resource fails with the 409 of the scan and
    leaves the table as it was.  The scan comes after the test of the new end
    against the start; that test passes when the call gets to the scan, and
    also whenever the booking is a proper interval that does not overlap the
    other one now. *)
Theorem update_booking_overlap_rejected env booking_id payload db row new_end other :
  db_get booking_id db = Some row ->
  new_end_ts env payload row = Ok new_end ->
  In other db ->
  Booking.resource_id other = Booking.resource_id row ->
  Booking.id other <> Booking.id row ->
  overlap (Booking.start_utc row) new_end
          (Booking.start_utc other) (Booking.end_utc other) = true ->
  Booking.start_utc row < new_end
  \/ (Booking.start_utc row < Booking.end_utc row
      /\ overlap (Booking.start_utc row) (Booking.end_utc row)
                 (Booking.start_utc other) (Booking.end_utc other) = false) ->
  update_booking env booking_id payload db = (Raise OverlapOnExtend, db)
  /\ db_get booking_id (snd (update_booking env booking_id payload db)) = Some row.
Proof.
  intros G Hne Hin Hres Hid Hov Hcase.
  assert (Hlt : Booking.start_utc row < new_end).
  { destruct Hcase as [H|[H1 H2]]; [exact H|].
    apply overlap_spec in Hov. apply overlap_false in H2. lia. }
  assert (E : update_booking env booking_id payload db = (Raise OverlapOnExtend, db)).
  { unfold update_booking. rewrite G, Hne.
    destruct (new_end <=? Booking.start_utc row) eqn:Le; [apply Z.leb_le in Le; lia|].
    rewrite (scan_hit _ _ _ db other Hin); [reflexivity | | exact Hov].
    apply andb_true_iff. split; [now apply Z.eqb_eq|].
    apply negb_true_iff. now apply Z.eqb_neq. }
  split; [exact E | rewrite E; exact G].
Qed.

(** C7. The new end of an extend call is the stored end plus [add_minutes]
    minutes or else the instant [end_iso_local] denotes; when it is not after
    the booking's start the call fails with "New end must be after start" and
    the table is unchanged. *)
Theorem update_booking_new_end env booking_id payload db row :
  db_get booking_id db = Some row ->
  (forall n, UpdateBookingIn.add_minutes payload = Some n ->
     new_end_ts env payload row = Ok (Booking.end_utc row + n * 60))
  /\ (forall s ts, UpdateBookingIn.add_minutes payload = None ->
        UpdateBookingIn.end_iso_local payload = Some s -> s <> EmptyString ->
        iso_to_epoch env s = Some ts ->
        new_end_ts env payload row = Ok ts)
  /\ (forall new_end, new_end_ts env payload row = Ok new_end ->
        (exists n, UpdateBookingIn.add_minutes payload = Some n
                   /\ new_end = Booking.end_utc row + n * 60)
        \/ (exists s, UpdateBookingIn.add_minutes payload = None
                      /\ UpdateBookingIn.end_iso_local payload = Some s
                      /\ iso_to_epoch env s = Some new_end))
  /\ (forall new_end, new_end_ts env payload row = Ok new_end ->
        new_end <= Booking.start_utc row ->
        update_booking env booking_id payload db = (Raise InvalidInterval, db)).
Proof.
  intros G. unfold new_end_ts. repeat split.
  - intros n ->. reflexivity.
  - intros s ts -> -> Hs Hp. destruct s; [congruence|]. simpl. rewrite Hp. reflexivity.
  - intros ne. destruct (UpdateBookingIn.add_minutes payload) as [n|].
    + intros [= <-]. left. exists n. split; reflexivity.
    + destruct (UpdateBookingIn.end_iso_local payload) as [[|c s]|]; simpl;
        try discriminate.
      destruct (iso_to_epoch env (String c s)) as [ts|] eqn:P; try discriminate.
      intros [= <-]. right. exists (String c s). repeat split. exact P.
  - intros ne Hne Hle. unfold update_booking. rewrite G. unfold new_end_ts. rewrite Hne.
    apply Z.leb_le in Hle. rewrite Hle. reflexivity.
Qed.

(** C9. A successful extend call changes nothing but the [end_utc] of the
    booking it names: row by row the table keeps id, resource, name, phone
    and start, and every row with another id is untouched. *)
Theorem update_booking_only_end env booking_id payload db out db' :
  update_booking env booking_id payload db = (Ok out, db') ->
  Forall2 (only_end_changed booking_id) db db'.
Proof.
  unfold update_booking.
  destruct (db_get booking_id db) as [row|] eqn:G; [|discriminate].
  destruct (new_end_ts env payload row) as [ne|]; [|discriminate].
  destruct (ne <=? Booking.start_utc row); [discriminate|].
  match goal with |- context [existsb ?f ?l] => destruct (existsb f l) end;
    [discriminate|].
  intros [= _ <-]. apply db_get_some in G. destruct G as [_ Hid].
  unfold db_set_end. rewrite Hid. clear.
  induction db as [|r db IH]; simpl; constructor; [|exact IH].
  unfold only_end_changed.
  destruct (Booking.id r =? booking_id) eqn:E; simpl; repeat split; try reflexivity.
  - apply Z.eqb_eq in E. congruence.
Qed.

(** C10. When a call carries both [add_minutes] and [end_iso_local], the
    minutes win: the new end is the stored end plus [add_minutes * 60] and
    the call does exactly what it does without [end_iso_local]. *)
Theorem update_booking_add_minutes_first env booking_id n s db :
  (forall row, new_end_ts env (UpdateBookingIn.mk (Some s) (Some n)) row
               = Ok (Booking.end_utc row + n * 60))
  /\ update_booking env booking_id (UpdateBookingIn.mk (Some s) (Some n)) db
     = update_booking env booking_id (UpdateBookingIn.mk None (Some n)) db
  /\ put_booking env booking_id (UpdateBookingIn.mk (Some s) (Some n)) db
     = put_booking env booking_id (UpdateBookingIn.mk None (Some n)) db.
Proof.
  repeat split.
Qed.

(** ** Listing *)

Lemma reads_bound_ts env q X : reads env q X -> bound_ts env q = Ok X.
Proof.
  unfold reads, bound_ts. destruct X as [x|].
  - intros [s [-> [Hs Hp]]]. destruct s; [congruence|]. simpl. rewrite Hp. reflexivity.
  - intros [->| ->]; reflexivity.
Qed.

Lemma list_rows_filter env X Y db :
  list_rows env X Y db = mapM (booking_out env) (filter (selected X Y) db).
Proof.
  induction db as [|r db IH]; [reflexivity|].
  cbn [list_rows filter]. unfold selected at 1.
  destruct X as [x|], Y as [y|];
    rewrite ?Z.gtb_ltb, ?Z.geb_leb, ?(Z.ltb_antisym (Booking.end_utc r)),
            ?(Z.ltb_antisym _ (Booking.start_utc r));
    repeat match goal with |- context [?a <=? ?b] => destruct (a <=? b) end;
    cbn [negb andb mapM]; rewrite IH; reflexivity.
Qed.

Lemma booking_out_id env r o : booking_out env r = Ok o -> BookingOut.id o = Booking.id r.
Proof.
  unfold booking_out.
  destruct (epoch_to_local_iso env (Booking.start_utc r)); [|discriminate].
  destruct (epoch_to_local_iso env (Booking.end_utc r)); [|discriminate].
  simpl. intros [= <-]. reflexivity.
Qed.

Lemma mapM_booking_out_ids env l outs :
  mapM (booking_out env) l = Ok outs -> map BookingOut.id outs = map Booking.id l.
Proof.
  revert outs. induction l as [|r l IH]; simpl; intros outs.
  - intros [= <-]. reflexivity.
  - destruct (booking_out env r) as [o|] eqn:Ho; [|discriminate]. simpl.
    destruct (mapM (booking_out env) l) as [os|]; [|discriminate]. simpl.
    intros [= <-]. simpl. rewrite (booking_out_id env r o Ho), (IH os eq_refl). reflexivity.
Qed.

Lemma mapM_total {A B} (f : A -> result B) l :
  (forall a, In a l -> exists b, f a = Ok b) -> exists bs, mapM f l = Ok bs.
Proof.
  induction l as [|a l IH]; simpl; intros H.
  - eexists; reflexivity.
  - destruct (H a (or_introl eq_refl)) as [b ->].
    destruct IH as [bs ->]; [intros x Hx; apply H; now right|].
    eexists; reflexivity.
Qed.

(** C6. A listing whose [from_] reads as [X] and whose [to] reads as [Y]
    returns, in table order, exactly the bookings with [end_utc > X] and
    [start_utc < Y]; a bound that is left out (or empty) drops its side of the
    test, and with neither bound every booking is returned. *)
Theorem list_bookings_range env from_ to X Y db :
  reads env from_ X -> reads env to Y ->
  list_bookings env from_ to db = mapM (booking_out env) (filter (selected X Y) db)
  /\ (forall outs, list_bookings env from_ to db = Ok outs ->
        map BookingOut.id outs = map Booking.id (filter (selected X Y) db))
  /\ ((forall r, In r db -> exists o, booking_out env r = Ok o) ->
      exists outs, list_bookings env from_ to db = Ok outs)
  /\ (forall r, selected X Y r = true <->
        (forall x, X = Some x -> Booking.end_utc r > x)
        /\ (forall y, Y = Some y -> Booking.start_utc r < y))
  /\ (X = None -> Y = None -> filter (selected X Y) db = db).
Proof.
  intros HX HY.
  assert (E : list_bookings env from_ to db
              = mapM (booking_out env) (filter (selected X Y) db)).
  { unfold list_bookings. rewrite (reads_bound_ts env from_ X HX),
      (reads_bound_ts env to Y HY). simpl. apply list_rows_filter. }
  split; [exact E | split; [|split; [|split]]].
  - intros outs H. rewrite E in H. now apply (mapM_booking_out_ids env).
  - intros Hall. rewrite E. apply mapM_total. intros r Hr. apply Hall.
    apply filter_In in Hr. tauto.
  - intros r. unfold selected. rewrite andb_true_iff. destruct X as [x|], Y as [y|];
      rewrite ?Z.gtb_gt, ?Z.ltb_lt; split.
    + intros [H1 H2]. split; intros ? [= <-]; assumption.
    + intros [H1 H2]. split; [now apply H1 | now apply H2].
    + intros [H1 _]. split; [intros ? [= <-]; assumption | discriminate].
    + intros [H1 _]. split; [now apply H1 | reflexivity].
    + intros [_ H2]. split; [discriminate | intros ? [= <-]; assumption].
    + intros [_ H2]. split; [reflexivity | now apply H2].
    + intros _. split; discriminate.
    + intros _. split; reflexivity.
  - intros -> ->. clear. induction db as [|r db IH]; [reflexivity|].
    cbn [filter selected andb]. now rewrite IH.
Qed.

(** ** The claims on the worked day *)

Example two_bookings_served :
  serve Copenhagen.env (POST_bookings Scenario.post_bo)
    (serve Copenhagen.env (POST_bookings Scenario.post_ann) [])
  = Scenario.two_bookings.
Proof. vm_compute. reflexivity. Qed.


Lemma overlap_half_open_back_to_back_witness :
  create_booking Copenhagen.env Scenario.post_bo [Scenario.ann]
  = (Ok Scenario.bo_out, Scenario.two_bookings).
Proof.
  apply (proj2 (proj2 overlap_half_open_back_to_back)
           Copenhagen.env Scenario.post_bo [Scenario.ann] Scenario.ann
           1735725600 1735727400 Scenario.bo_out).
  - reflexivity.
  - reflexivity.
  - simpl. left. reflexivity.
  - reflexivity.
  - reflexivity.
  - intros r [<-|[]] Hne _. exfalso. apply Hne. reflexivity.
  - reflexivity.
Defined.

Lemma create_booking_blank_name_not_rejected_witness :
  exists row,
    Booking.name row = EmptyString
    /\ Booking.start_utc row = 1735722000 /\ Booking.end_utc row = 1735725600
    /\ Booking.resource_id row = 1
    /\ create_booking Copenhagen.env Scenario.post_blank []
       = (booking_out Copenhagen.env row, [row]).
Proof.
  apply (create_booking_blank_name_not_rejected Copenhagen.env Scenario.post_blank []
           1735722000 1735725600).
  - reflexivity.
  - reflexivity.
  - reflexivity.
  - intros r [].
Defined.


Lemma update_booking_overlap_rejected_witness :
  update_booking Copenhagen.env 1 (UpdateBookingIn.mk None (Some 30)) Scenario.two_bookings
  = (Raise OverlapOnExtend, Scenario.two_bookings)
  /\ db_get 1 (snd (update_booking Copenhagen.env 1 (UpdateBookingIn.mk None (Some 30))
                      Scenario.two_bookings)) = Some Scenario.ann.
Proof.
  apply (update_booking_overlap_rejected Copenhagen.env 1
           (UpdateBookingIn.mk None (Some 30)) Scenario.two_bookings
           Scenario.ann 1735727400 Scenario.bo).
  - reflexivity.
  - reflexivity.
  - simpl. right. left. reflexivity.
  - reflexivity.
  - simpl. lia.
  - reflexivity.
  - right. split; [simpl; lia | reflexivity].
Defined.

Lemma list_bookings_range_witness :
  list_bookings Copenhagen.env
    (Some "2025-01-01T11:00:00+01:00") (Some "2025-01-01T12:00:00+01:00")
    Scenario.two_bookings
  = Ok [Scenario.bo_out].
Proof.
  refine (proj1 (list_bookings_range Copenhagen.env
            (Some "2025-01-01T11:00:00+01:00") (Some "2025-01-01T12:00:00+01:00")
            (Some 1735725600) (Some 1735729200) Scenario.two_bookings _ _)).
  - exists "2025-01-01T11:00:00+01:00". split; [reflexivity | split; [discriminate | reflexivity]].
  - exists "2025-01-01T12:00:00+01:00". split; [reflexivity | split; [discriminate | reflexivity]].
Defined.

Lemma update_booking_new_end_witness :
  update_booking Copenhagen.env 1
    (UpdateBookingIn.mk (Some "2025-01-01T09:00:00+01:00") None) Scenario.two_bookings
  = (Raise InvalidInterval, Scenario.two_bookings).
Proof.
  apply (proj2 (proj2 (proj2
           (update_booking_new_end Copenhagen.env 1
              (UpdateBookingIn.mk (Some "2025-01-01T09:00:00+01:00") None)
              Scenario.two_bookings Scenario.ann eq_refl)))
           1735718400).
  - reflexivity.
  - simpl. lia.
Defined.

Lemma update_booking_only_end_witness :
  Forall2 (only_end_changed 2) Scenario.two_bookings
    [Scenario.ann; Booking.mk 2 1 "Bo" (Some "12 34") 1735725600 1735729200].
Proof.
  apply (update_booking_only_end Copenhagen.env 2 (UpdateBookingIn.mk None (Some 30))
           Scenario.two_bookings Scenario.bo_longer_out).
  reflexivity.
Defined.

(** ** Proper intervals in a zone without offset changes *)

Lemma post_bookings_short_duration env payload db :
  CreateBookingIn.duration_minutes payload < 15 ->
  post_bookings env payload db = (Raise RequestValidationError, db).
Proof.
  intros H. unfold post_bookings, CreateBookingIn.validate.
  destruct (15 <=? CreateBookingIn.duration_minutes payload) eqn:E;
    [apply Z.leb_le in E; lia | reflexivity].
Qed.

Lemma start_end_ts_fixed_offset env payload s e :
  fixed_offset env ->
  CreateBookingIn.validate payload = true ->
  start_end_ts env payload = Ok (s, e) ->
  e = s + CreateBookingIn.duration_minutes payload * 60 /\ s < e.
Proof.
  intros Hfix Hv. unfold CreateBookingIn.validate in Hv.
  apply andb_true_iff in Hv. destruct Hv as [Hlo _]. apply Z.leb_le in Hlo.
  unfold start_end_ts.
  destruct (parse_date_time payload) as [[[[[y m] d] sh] sm]|]; [|discriminate].
  cbn [bind]. destruct (Datetime.datetime y m d sh sm) as [w|]; [|discriminate].
  cbn [bind unhandled]. unfold Datetime.add_seconds.
  destruct (Datetime.in_range (w + _)); [|discriminate].
  cbn [bind unhandled]. unfold dt_local_to_epoch.
  destruct (Datetime.in_range (w - _)); [|discriminate]. cbn [bind].
  destruct (Datetime.in_range (w + _ - _)); [|discriminate]. cbn [bind].
  intros [= <- <-].
  rewrite (Hfix (w + CreateBookingIn.duration_minutes payload * 60) w). lia.
Qed.

(** X19. In a zone whose offset never changes every booking the service
    stores ends after it starts. *)
Lemma reachable_proper_fixed_offset env db :
  fixed_offset env -> reachable env db -> proper_intervals db.
Proof.
  intros Hfix. induction 1 as [|rq db R IH]; [intros r []|].
  destruct rq as [f t|p|i|i p]; simpl.
  - exact IH.
  - unfold post_bookings. destruct (CreateBookingIn.validate p) eqn:Hv; [|exact IH].
    unfold create_booking.
    destruct (start_end_ts env p) as [[s e]|] eqn:Ht; [|exact IH].
    destruct (negb _); [exact IH|].
    match goal with |- context [existsb ?f ?l] => destruct (existsb f l) end; [exact IH|].
    simpl. intros r Hr. apply in_app_iff in Hr. destruct Hr as [Hr|[<-|[]]]; [now apply IH|].
    simpl. apply (start_end_ts_fixed_offset env p s e Hfix Hv Ht).
  - unfold delete_booking. destruct (db_get i db); [|exact IH].
    simpl. intros r Hr. apply filter_In in Hr. now apply IH.
  - unfold put_booking. destruct (UpdateBookingIn.validate p); [|exact IH].
    unfold update_booking.
    destruct (db_get i db) as [row|] eqn:G; [|exact IH].
    destruct (new_end_ts env p row) as [ne|]; [|exact IH].
    destruct (ne <=? Booking.start_utc row) eqn:Le; [exact IH|].
    match goal with |- context [existsb ?f ?l] => destruct (existsb f l) end; [exact IH|].
    simpl. intros r' Hr. unfold db_set_end in Hr. apply in_map_iff in Hr.
    destruct Hr as [r [<- Hr]].
    destruct (Booking.id r =? Booking.id row) eqn:E; [|now apply IH].
    simpl. apply Z.leb_gt in Le. apply db_get_some in G. destruct G as [Hrow _].
    apply Z.eqb_eq in E.
    assert (r = row)
      by (apply (same_id_same_row db); try assumption; apply (reachable_inv env db R)).
    subst r. exact Le.
Qed.

(** * Further properties of the handlers *)

(** ** Lookups in a changed table *)

Lemma db_get_none booking_id db :
  db_get booking_id db = None <-> forall r, In r db -> Booking.id r <> booking_id.
Proof.
  unfold db_get. split.
  - intros H r Hr E. apply (find_none _ _ H) in Hr. apply Z.eqb_eq in E. congruence.
  - intros H. induction db as [|x db IH]; [reflexivity|]. simpl.
    destruct (Booking.id x =? booking_id) eqn:E.
    + apply Z.eqb_eq in E. exfalso. apply (H x); [now left | exact E].
    + apply IH. intros r Hr. apply H. now right.
Qed.

Lemma db_get_snoc j db row :
  db_get j (db ++ [row])
  = match db_get j db with
    | Some r => Some r
    | None => if Booking.id row =? j then Some row else None
    end.
Proof.
  unfold db_get. induction db as [|x db IH]; simpl; [reflexivity|].
  destruct (Booking.id x =? j); [reflexivity | exact IH].
Qed.

Lemma db_get_delete j row db :
  db_get j (db_delete row db) = if j =? Booking.id row then None else db_get j db.
Proof.
  unfold db_get, db_delete. induction db as [|x db IH]; simpl.
  - destruct (j =? Booking.id row); reflexivity.
  - destruct (Booking.id x =? Booking.id row) eqn:E1; simpl.
    + rewrite IH. destruct (j =? Booking.id row) eqn:E2; [reflexivity|].
      destruct (Booking.id x =? j) eqn:E3; [|reflexivity].
      apply Z.eqb_eq in E1, E3. apply Z.eqb_neq in E2. congruence.
    + destruct (Booking.id x =? j) eqn:E3.
      * destruct (j =? Booking.id row) eqn:E2; [|reflexivity].
        apply Z.eqb_eq in E2, E3. apply Z.eqb_neq in E1. congruence.
      * exact IH.
Qed.

Lemma db_get_set_end j row v db :
  db_get j (db_set_end row v db)
  = option_map (fun r => if Booking.id r =? Booking.id row
                         then Booking.set_end_utc r v else r) (db_get j db).
Proof.
  unfold db_get, db_set_end. induction db as [|x db IH]; simpl; [reflexivity|].
  assert (E : Booking.id (if Booking.id x =? Booking.id row
                          then Booking.set_end_utc x v else x) = Booking.id x)
    by (destruct (Booking.id x =? Booking.id row); reflexivity).
  rewrite E. destruct (Booking.id x =? j); [reflexivity | exact IH].
Qed.

(** ** What the handlers can raise *)

Lemma booking_out_raises env r e : booking_out env r = Raise e -> e = Unhandled.
Proof.
  unfold booking_out, epoch_to_local_iso.
  repeat match goal with |- context [if ?b then _ else _] => destruct b end;
    simpl; congruence.
Qed.

Lemma start_end_ts_raises env p e :
  start_end_ts env p = Raise e -> e = BadDateTime \/ e = Unhandled.
Proof.
  unfold start_end_ts, parse_date_time.
  destruct (map Py.int (Py.split "-" (CreateBookingIn.date p)))
    as [|[y|] [|[m|] [|[d|] [|]]]]; simpl; try (intros [= <-]; now left);
  destruct (map Py.int (Py.split ":" (CreateBookingIn.start_time p)))
    as [|[sh|] [|[sm|] [|]]]; simpl; try (intros [= <-]; now left).
  unfold Datetime.add_seconds, dt_local_to_epoch.
  destruct (Datetime.datetime y m d sh sm) as [w|]; simpl; [|intros [= <-]; now right].
  repeat match goal with |- context [if ?b then _ else _] => destruct b; simpl end;
    try discriminate; intros [= <-]; now right.
Qed.

(** The three ways [create_booking] ends without touching the table, and the
    one way it adds a row. *)
Lemma create_booking_cases env p db :
  (exists e, start_end_ts env p = Raise e /\ create_booking env p db = (Raise e, db))
  \/ (exists s e, start_end_ts env p = Ok (s, e)
        /\ dict_mem (CreateBookingIn.resource_id p) resources_dict = false
        /\ create_booking env p db = (Raise UnknownResource, db))
  \/ (exists s e r, start_end_ts env p = Ok (s, e)
        /\ dict_mem (CreateBookingIn.resource_id p) resources_dict = true
        /\ In r db /\ Booking.resource_id r = CreateBookingIn.resource_id p
        /\ overlap s e (Booking.start_utc r) (Booking.end_utc r) = true
        /\ create_booking env p db = (Raise OverlapOnCreate, db))
  \/ (exists s e, start_end_ts env p = Ok (s, e)
        /\ dict_mem (CreateBookingIn.resource_id p) resources_dict = true
        /\ (forall r, In r db -> Booking.resource_id r = CreateBookingIn.resource_id p ->
              overlap s e (Booking.start_utc r) (Booking.end_utc r) = false)
        /\ create_booking env p db
           = (booking_out env (new_row p s e db), db ++ [new_row p s e db])).
Proof.
  unfold create_booking.
  destruct (start_end_ts env p) as [[s e]|err]; [|left; eauto].
  destruct (dict_mem (CreateBookingIn.resource_id p) resources_dict) eqn:Hres;
    simpl negb; cbv iota; [|right; left; eauto 6].
  match goal with |- context [existsb ?f ?l] => destruct (existsb f l) eqn:Scan end.
  - right; right; left. apply existsb_exists in Scan. destruct Scan as [r [Hr Ho]].
    apply filter_In in Hr. destruct Hr as [Hr Hk]. apply Z.eqb_eq in Hk.
    exists s, e, r. repeat split; assumption.
  - right; right; right. exists s, e. repeat split.
    intros r Hr Hk. apply (scan_clear _ _ _ _ Scan r Hr). now apply Z.eqb_eq.
Qed.

(** The same for [update_booking]. *)
Lemma update_booking_cases env booking_id p db :
  (db_get booking_id db = None
     /\ update_booking env booking_id p db = (Raise NotFound, db))
  \/ (exists row e, db_get booking_id db = Some row
        /\ new_end_ts env p row = Raise e
        /\ update_booking env booking_id p db = (Raise e, db))
  \/ (exists row new_end, db_get booking_id db = Some row
        /\ new_end_ts env p row = Ok new_end
        /\ new_end <= Booking.start_utc row
        /\ update_booking env booking_id p db = (Raise InvalidInterval, db))
  \/ (exists row new_end r, db_get booking_id db = Some row
        /\ new_end_ts env p row = Ok new_end
        /\ Booking.start_utc row < new_end
        /\ In r db /\ Booking.resource_id r = Booking.resource_id row
        /\ Booking.id r <> Booking.id row
        /\ overlap (Booking.start_utc row) new_end
                   (Booking.start_utc r) (Booking.end_utc r) = true
        /\ update_booking env booking_id p db = (Raise OverlapOnExtend, db))
  \/ (exists row new_end, db_get booking_id db = Some row
        /\ new_end_ts env p row = Ok new_end
        /\ Booking.start_utc row < new_end
        /\ (forall r, In r db -> Booking.resource_id r = Booking.resource_id row ->
              Booking.id r <> Booking.id row ->
              overlap (Booking.start_utc row) new_end
                      (Booking.start_utc r) (Booking.end_utc r) = false)
        /\ update_booking env booking_id p db
           = (booking_out env (Booking.set_end_utc row new_end),
              db_set_end row new_end db)).
Proof.
  unfold update_booking.
  destruct (db_get booking_id db) as [row|]; [|left; split; reflexivity].
  destruct (new_end_ts env p row) as [ne|err] eqn:Hne; [|right; left; eauto 6].
  destruct (ne <=? Booking.start_utc row) eqn:Le.
  { apply Z.leb_le in Le. right; right; left. exists row, ne. repeat split; auto. }
  apply Z.leb_gt in Le.
  match goal with |- context [existsb ?f ?l] => destruct (existsb f l) eqn:Scan end.
  - right; right; right; left. apply existsb_exists in Scan. destruct Scan as [r [Hr Ho]].
    apply filter_In in Hr. destruct Hr as [Hr Hk]. apply andb_true_iff in Hk.
    destruct Hk as [K1 K2]. apply Z.eqb_eq in K1. apply negb_true_iff in K2.
    apply Z.eqb_neq in K2. exists row, ne, r. repeat split; auto.
  - right; right; right; right. exists row, ne. repeat split; auto.
    intros r Hr K1 K2. apply (scan_clear _ _ _ _ Scan r Hr).
    apply andb_true_iff. split; [now apply Z.eqb_eq|].
    apply negb_true_iff. now apply Z.eqb_neq.
Qed.

Lemma new_end_ts_raises env p row e :
  new_end_ts env p row = Raise e -> e = BadEndIso \/ e = NothingToUpdate.
Proof.
  unfold new_end_ts. destruct (UpdateBookingIn.add_minutes p); [discriminate|].
  destruct (truthy (UpdateBookingIn.end_iso_local p)) as [s|]; [|intros [= <-]; now right].
  destruct (iso_to_epoch env s); [discriminate | intros [= <-]; now left].
Qed.

(** ** Delete *)

Lemma delete_booking_gone booking_id db msg db' :
  delete_booking booking_id db = (Ok msg, db') -> db_get booking_id db' = None.
Proof.
  unfold delete_booking.
  destruct (db_get booking_id db) as [row|] eqn:G; [|discriminate].
  intros [= _ <-]. apply db_get_some in G. destruct G as [_ Hid].
  rewrite db_get_delete, Hid, Z.eqb_refl. reflexivity.
Qed.

(** X1. Once a booking is deleted its id is gone: looking it up finds
    nothing, a second delete reports "Booking not found", and so does any
    extend of that id. *)
Theorem delete_booking_then_not_found env booking_id db msg db' :
  delete_booking booking_id db = (Ok msg, db') ->
  db_get booking_id db' = None
  /\ delete_booking booking_id db' = (Raise NotFound, db')
  /\ (forall payload, update_booking env booking_id payload db' = (Raise NotFound, db')).
Proof.
  intros D. pose proof (delete_booking_gone booking_id db msg db' D) as N.
  split; [exact N | split].
  - unfold delete_booking. rewrite N. reflexivity.
  - intros payload. unfold update_booking. rewrite N. reflexivity.
Qed.

(** X2. A delete removes the rows with that id and nothing else: every
    other id is looked up as before, and the rows left are the rows there
    were, that booking apart. *)
Theorem delete_booking_keeps_others booking_id db msg db' :
  delete_booking booking_id db = (Ok msg, db') ->
  (forall j, j <> booking_id -> db_get j db' = db_get j db)
  /\ (forall r, In r db' <-> In r db /\ Booking.id r <> booking_id)
  /\ (List.length db' < List.length db)%nat.
Proof.
  unfold delete_booking.
  destruct (db_get booking_id db) as [row|] eqn:G; [|discriminate].
  intros [= _ <-]. apply db_get_some in G. destruct G as [Hin Hid].
  split; [|split].
  - intros j Hj. rewrite db_get_delete, Hid.
    destruct (j =? booking_id) eqn:E; [apply Z.eqb_eq in E; contradiction | reflexivity].
  - intros r. unfold db_delete. rewrite filter_In, negb_true_iff, Z.eqb_neq, Hid. tauto.
  - unfold db_delete. clear Hid. induction db as [|x db IH]; [destruct Hin|].
    simpl. destruct Hin as [->|Hin].
    + rewrite Z.eqb_refl. simpl. apply Nat.lt_succ_r. apply filter_length_le.
    + destruct (negb (Booking.id x =? Booking.id row)); simpl.
      * apply -> Nat.succ_lt_mono. now apply IH.
      * apply Nat.lt_lt_succ_r. now apply IH.
Qed.

(** ** Create *)

(** X3. A create call never changes or removes a stored row: the table
    afterwards is the table before, or the table before with one row added
    at the end, under an id no stored row has. *)
Theorem create_booking_only_appends env payload db :
  snd (create_booking env payload db) = db
  \/ exists row,
       snd (create_booking env payload db) = db ++ [row]
       /\ Booking.id row = next_id db
       /\ db_get (Booking.id row) db = None.
Proof.
  destruct (create_booking_cases env payload db)
    as [[e [_ ->]]|[[s [e [_ [_ ->]]]]|[[s [e [r [_ [_ [_ [_ [_ ->]]]]]]]]|[s [e [_ [_ [_ ->]]]]]]]];
    try (left; reflexivity).
  right. exists (new_row payload s e db). repeat split.
  apply db_get_none. intros r Hr. apply next_id_above in Hr. simpl. lia.
Qed.

(** X4. A booking that was created can be looked up under the id the
    response carries: the row found holds the trimmed name, the resource and
    the phone of the request, and every other id is looked up as before. *)
Theorem create_booking_then_get env payload db out db' :
  create_booking env payload db = (Ok out, db') ->
  exists row,
    db_get (BookingOut.id out) db' = Some row
    /\ db_get (BookingOut.id out) db = None
    /\ (forall j, j <> BookingOut.id out -> db_get j db' = db_get j db)
    /\ Booking.id row = BookingOut.id out
    /\ Booking.resource_id row = CreateBookingIn.resource_id payload
    /\ Booking.name row = Py.strip (CreateBookingIn.name payload)
    /\ Booking.phone row = clean_phone (CreateBookingIn.phone payload)
    /\ booking_out env row = Ok out.
Proof.
  intros H.
  destruct (create_booking_cases env payload db)
    as [[e [_ E]]|[[s [e [_ [_ E]]]]|[[s [e [r [_ [_ [_ [_ [_ E]]]]]]]]|[s [e [_ [_ [_ E]]]]]]]];
    rewrite E in H; try discriminate.
  injection H as Hout <-. set (row := new_row payload s e db) in *.
  assert (Hid : BookingOut.id out = next_id db)
    by (rewrite (booking_out_id env row out Hout); reflexivity).
  assert (N : db_get (next_id db) db = None).
  { apply db_get_none. intros r Hr. apply next_id_above in Hr. lia. }
  exists row. rewrite Hid. repeat split; try assumption.
  - rewrite db_get_snoc, N. simpl. rewrite Z.eqb_refl. reflexivity.
  - intros j Hj. rewrite db_get_snoc. destruct (db_get j db); [reflexivity|].
    simpl. destruct (next_id db =? j) eqn:E'; [|reflexivity].
    apply Z.eqb_eq in E'. congruence.
Qed.

(** X5. [create_booking] answers 409 "Booking overlaps existing reservation"
    exactly when the times are read, the resource is in the catalog and some
    stored booking of that resource overlaps the new interval; bookings of
    other resources never stand in the way. *)
Theorem create_booking_overlap_iff env payload db :
  fst (create_booking env payload db) = Raise OverlapOnCreate
  <-> exists start_ts end_ts r,
        start_end_ts env payload = Ok (start_ts, end_ts)
        /\ dict_mem (CreateBookingIn.resource_id payload) resources_dict = true
        /\ In r db
        /\ Booking.resource_id r = CreateBookingIn.resource_id payload
        /\ start_ts < Booking.end_utc r /\ end_ts > Booking.start_utc r.
Proof.
  split.
  - intros H.
    destruct (create_booking_cases env payload db)
      as [[e [T E]]|[[s [e [_ [_ E]]]]|[[s [e [r [T [R [I [K [O E]]]]]]]]|[s [e [_ [_ [_ E]]]]]]]];
      rewrite E in H; simpl in H.
    + injection H as ->. apply start_end_ts_raises in T. destruct T; discriminate.
    + discriminate.
    + apply overlap_spec in O. exists s, e, r. tauto.
    + destruct (booking_out env (new_row payload s e db)) as [o|err] eqn:B; [discriminate|].
      apply booking_out_raises in B. subst err. discriminate.
  - intros [s [e [r [T [R [I [K [O1 O2]]]]]]]].
    unfold create_booking. rewrite T, R. simpl negb. cbv iota.
    rewrite (scan_hit _ s e db r I); [reflexivity | now apply Z.eqb_eq |].
    apply overlap_spec. split; assumption.
Qed.

(** ** Failures leave the table alone *)

(** X6. A create, extend or delete that is answered with an [HTTPException]
    or with the schema's validation error has changed nothing; only an
    exception of [datetime] raised while the response is written can come
    after a commit. *)
Theorem refused_request_changes_nothing env :
  (forall payload db e db',
     post_bookings env payload db = (Raise e, db') -> e <> Unhandled -> db' = db)
  /\ (forall booking_id payload db e db',
        put_booking env booking_id payload db = (Raise e, db') -> e <> Unhandled -> db' = db)
  /\ (forall booking_id db e db',
        delete_booking booking_id db = (Raise e, db') -> db' = db).
Proof.
  split; [|split].
  - intros p db e db' H Hne. unfold post_bookings in H.
    destruct (CreateBookingIn.validate p); [|now injection H].
    destruct (create_booking_cases env p db)
      as [[x [_ E]]|[[s [x [_ [_ E]]]]|[[s [x [r [_ [_ [_ [_ [_ E]]]]]]]]|[s [x [_ [_ [_ E]]]]]]]];
      rewrite E in H; try (now injection H).
    injection H as B _. apply booking_out_raises in B. contradiction.
  - intros i p db e db' H Hne. unfold put_booking in H.
    destruct (UpdateBookingIn.validate p); [|now injection H].
    destruct (update_booking_cases env i p db)
      as [[_ E]|[[row [x [_ [_ E]]]]|[[row [x [_ [_ [_ E]]]]]
         |[[row [x [r [_ [_ [_ [_ [_ [_ [_ E]]]]]]]]]]|[row [x [_ [_ [_ [_ E]]]]]]]]]];
      rewrite E in H; try (now injection H).
    injection H as B _. apply booking_out_raises in B. contradiction.
  - intros i db e db' H. unfold delete_booking in H.
    destruct (db_get i db); [discriminate | now injection H].
Qed.

(** ** Extend *)

(** X7. After a successful extend the booking is looked up with the new end
    and nothing else changed, the new end is after its start, the response
    is written from that row, and every other id is looked up as before. *)
Theorem update_booking_then_get env booking_id payload db out db' :
  update_booking env booking_id payload db = (Ok out, db') ->
  exists row new_end,
    db_get booking_id db = Some row
    /\ new_end_ts env payload row = Ok new_end
    /\ Booking.start_utc row < new_end
    /\ db_get booking_id db' = Some (Booking.set_end_utc row new_end)
    /\ (forall j, j <> booking_id -> db_get j db' = db_get j db)
    /\ booking_out env (Booking.set_end_utc row new_end) = Ok out.
Proof.
  intros H.
  destruct (update_booking_cases env booking_id payload db)
    as [[_ E]|[[row [x [_ [_ E]]]]|[[row [x [_ [_ [_ E]]]]]
       |[[row [x [r [_ [_ [_ [_ [_ [_ [_ E]]]]]]]]]]|[row [ne [G [N [L [_ E]]]]]]]]]];
    rewrite E in H; try discriminate.
  injection H as B <-. exists row, ne. repeat split; try assumption.
  - rewrite db_get_set_end, G. simpl. rewrite Z.eqb_refl. reflexivity.
  - intros j Hj. rewrite db_get_set_end.
    destruct (db_get j db) as [r|] eqn:Gj; [|reflexivity]. simpl.
    apply db_get_some in Gj. destruct Gj as [_ Ej].
    apply db_get_some in G. destruct G as [_ Ei].
    destruct (Booking.id r =? Booking.id row) eqn:E'; [|reflexivity].
    apply Z.eqb_eq in E'. congruence.
Qed.

(** X8. Extending by minutes moves the end later: with [add_minutes]
    accepted by the schema the new end is after the old one, so a booking
    that ends after its start is never refused with "New end must be after
    start". *)
Theorem put_booking_add_minutes_moves_later env booking_id payload db row n :
  UpdateBookingIn.validate payload = true ->
  UpdateBookingIn.add_minutes payload = Some n ->
  db_get booking_id db = Some row ->
  Booking.start_utc row < Booking.end_utc row ->
  new_end_ts env payload row = Ok (Booking.end_utc row + n * 60)
  /\ Booking.end_utc row < Booking.end_utc row + n * 60
  /\ fst (put_booking env booking_id payload db) <> Raise InvalidInterval.
Proof.
  intros Hv Hn G Hp.
  assert (Hpos : 1 <= n).
  { unfold UpdateBookingIn.validate in Hv. rewrite Hn in Hv.
    apply andb_true_iff in Hv. destruct Hv as [Hv _]. now apply Z.leb_le. }
  assert (N : new_end_ts env payload row = Ok (Booking.end_utc row + n * 60))
    by (unfold new_end_ts; rewrite Hn; reflexivity).
  split; [exact N | split; [lia|]].
  unfold put_booking. rewrite Hv.
  destruct (update_booking_cases env booking_id payload db)
    as [[_ E]|[[r0 [x [G' [N' E]]]]|[[r0 [x [G' [N' [L E]]]]]
       |[[r0 [x [r [_ [_ [_ [_ [_ [_ [_ E]]]]]]]]]]|[r0 [x [_ [_ [_ [_ E]]]]]]]]]];
    rewrite E; simpl; try discriminate.
  - rewrite G in G'. injection G' as <-. rewrite N in N'. discriminate.
  - rewrite G in G'. injection G' as <-. rewrite N in N'. injection N' as <-. lia.
  - destruct (booking_out env (Booking.set_end_utc r0 x)) as [o|err] eqn:B; [discriminate|].
    apply booking_out_raises in B. subst err. discriminate.
Qed.

(** X9. Making a booking shorter never conflicts: in a table without
    overlaps, a new end after the start and not after the stored end is
    always written. *)
Theorem update_booking_shorter_never_conflicts env booking_id payload db row new_end :
  no_overlap db ->
  db_get booking_id db = Some row ->
  new_end_ts env payload row = Ok new_end ->
  Booking.start_utc row < new_end ->
  new_end <= Booking.end_utc row ->
  update_booking env booking_id payload db
  = (booking_out env (Booking.set_end_utc row new_end), db_set_end row new_end db).
Proof.
  intros NO G N Hlo Hhi. unfold update_booking. rewrite G, N.
  destruct (new_end <=? Booking.start_utc row) eqn:Le; [apply Z.leb_le in Le; lia|].
  match goal with |- context [existsb ?f ?l] => destruct (existsb f l) eqn:Scan end;
    [|reflexivity].
  apply existsb_exists in Scan. destruct Scan as [r [Hr Ho]].
  apply filter_In in Hr. destruct Hr as [Hr Hk]. apply andb_true_iff in Hk.
  destruct Hk as [K1 K2]. apply Z.eqb_eq in K1. apply negb_true_iff in K2.
  apply Z.eqb_neq in K2. apply db_get_some in G. destruct G as [Hrow _].
  assert (F := NO row r Hrow Hr (fun E => K2 (eq_sym E)) (eq_sym K1)).
  apply overlap_spec in Ho. apply overlap_false in F. lia.
Qed.

(** ** Create, again *)

(** X10. The same create call does not go through twice: once a booking
    with a start before its end is stored, repeating the request is refused
    with 409 and the table keeps the one booking. *)
Theorem create_booking_repeat_refused env payload db out db' start_ts end_ts :
  create_booking env payload db = (Ok out, db') ->
  start_end_ts env payload = Ok (start_ts, end_ts) ->
  start_ts < end_ts ->
  create_booking env payload db' = (Raise OverlapOnCreate, db').
Proof.
  intros H T Hp.
  destruct (create_booking_cases env payload db)
    as [[e [_ E]]|[[s [e [_ [_ E]]]]|[[s [e [r [_ [_ [_ [_ [_ E]]]]]]]]|[s [e [T' [R [_ E]]]]]]]];
    rewrite E in H; try discriminate.
  injection H as _ <-. rewrite T in T'. injection T' as <- <-.
  unfold create_booking. rewrite T, R. simpl negb. cbv iota.
  rewrite (scan_hit _ start_ts end_ts _ (new_row payload start_ts end_ts db));
    [reflexivity | | |].
  - apply in_app_iff. right. now left.
  - simpl. apply Z.eqb_refl.
  - simpl. apply overlap_spec. lia.
Qed.

(** X11. The schema bounds are the only source of the validation error: a
    create body is turned away with it exactly when [duration_minutes] is
    below 15 or above 480, an extend body exactly when [add_minutes] is given
    and below 1 or above 720. *)
Theorem validation_error_iff env db :
  (forall payload,
     fst (post_bookings env payload db) = Raise RequestValidationError
     <-> CreateBookingIn.duration_minutes payload < 15
         \/ 480 < CreateBookingIn.duration_minutes payload)
  /\ (forall booking_id payload,
        fst (put_booking env booking_id payload db) = Raise RequestValidationError
        <-> exists n, UpdateBookingIn.add_minutes payload = Some n /\ (n < 1 \/ 720 < n)).
Proof.
  split.
  - intros p. unfold post_bookings, CreateBookingIn.validate.
    destruct (15 <=? CreateBookingIn.duration_minutes p) eqn:A;
      destruct (CreateBookingIn.duration_minutes p <=? 8 * 60) eqn:B; simpl;
      try apply Z.leb_le in A; try apply Z.leb_gt in A;
      try apply Z.leb_le in B; try apply Z.leb_gt in B;
      try (split; [lia | reflexivity]).
    split; [|lia]. intros H. exfalso.
    destruct (create_booking_cases env p db)
      as [[e [T E]]|[[s [e [_ [_ E]]]]|[[s [e [r [_ [_ [_ [_ [_ E]]]]]]]]|[s [e [_ [_ [_ E]]]]]]]];
      rewrite E in H; simpl in H; try discriminate.
    + injection H as ->. apply start_end_ts_raises in T. destruct T; discriminate.
    + destruct (booking_out env (new_row p s e db)) as [o|err] eqn:Bo; [discriminate|].
      apply booking_out_raises in Bo. subst err. discriminate.
  - intros i p. unfold put_booking, UpdateBookingIn.validate.
    destruct (UpdateBookingIn.add_minutes p) as [n|] eqn:An.
    + destruct (1 <=? n) eqn:A; destruct (n <=? 12 * 60) eqn:B; simpl;
        try apply Z.leb_le in A; try apply Z.leb_gt in A;
        try apply Z.leb_le in B; try apply Z.leb_gt in B;
        try (split; [intros _; exists n; split; [reflexivity | lia] | reflexivity]).
      split; [|intros [m [[= <-] Hm]]; lia]. intros H. exfalso.
      destruct (update_booking_cases env i p db)
        as [[_ E]|[[row [x [_ [N E]]]]|[[row [x [_ [_ [_ E]]]]]
           |[[row [x [r [_ [_ [_ [_ [_ [_ [_ E]]]]]]]]]]|[row [x [_ [_ [_ [_ E]]]]]]]]]];
        rewrite E in H; simpl in H; try discriminate.
      * injection H as ->. apply new_end_ts_raises in N. destruct N; discriminate.
      * destruct (booking_out env (Booking.set_end_utc row x)) as [o|err] eqn:Bo;
          [discriminate|].
        apply booking_out_raises in Bo. subst err. discriminate.
    + split; [|intros [m [[=] _]]]. intros H. exfalso.
      destruct (update_booking_cases env i p db)
        as [[_ E]|[[row [x [_ [N E]]]]|[[row [x [_ [_ [_ E]]]]]
           |[[row [x [r [_ [_ [_ [_ [_ [_ [_ E]]]]]]]]]]|[row [x [_ [_ [_ [_ E]]]]]]]]]];
        rewrite E in H; simpl in H; try discriminate.
      * injection H as ->. apply new_end_ts_raises in N. destruct N; discriminate.
      * destruct (booking_out env (Booking.set_end_utc row x)) as [o|err] eqn:Bo;
          [discriminate|].
        apply booking_out_raises in Bo. subst err. discriminate.
Qed.

(** X12. In a zone whose offset never changes a created booking lasts
    exactly [duration_minutes] minutes, between a quarter of an hour and
    eight hours. *)
Theorem post_bookings_duration_fixed_offset env payload db out db' :
  fixed_offset env ->
  post_bookings env payload db = (Ok out, db') ->
  exists row,
    db' = db ++ [row]
    /\ Booking.end_utc row
       = Booking.start_utc row + CreateBookingIn.duration_minutes payload * 60
    /\ 900 <= Booking.end_utc row - Booking.start_utc row <= 28800.
Proof.
  intros Hfix H. unfold post_bookings in H.
  destruct (CreateBookingIn.validate payload) eqn:Hv; [|discriminate].
  destruct (create_booking_cases env payload db)
    as [[e [_ E]]|[[s [e [_ [_ E]]]]|[[s [e [r [_ [_ [_ [_ [_ E]]]]]]]]|[s [e [T [_ [_ E]]]]]]]];
    rewrite E in H; try discriminate.
  injection H as _ <-. exists (new_row payload s e db).
  destruct (start_end_ts_fixed_offset env payload s e Hfix Hv T) as [He _].
  unfold CreateBookingIn.validate in Hv. apply andb_true_iff in Hv.
  destruct Hv as [A B]. apply Z.leb_le in A, B. simpl. repeat split; lia.
Qed.

(** ** What every stored row satisfies *)

Lemma rstrip_by_head sp c t :
  sp c = false -> Py.rstrip_by sp (String c t) = String c (Py.rstrip_by sp t).
Proof.
  intros H. simpl. destruct (Py.rstrip_by sp t); [rewrite H|]; reflexivity.
Qed.

Lemma rstrip_by_idem sp s : Py.rstrip_by sp (Py.rstrip_by sp s) = Py.rstrip_by sp s.
Proof.
  induction s as [|c t IH]; [reflexivity|]. simpl.
  destruct (Py.rstrip_by sp t) as [|c' t'] eqn:E.
  - destruct (sp c) eqn:Hc; simpl; [reflexivity | rewrite Hc; reflexivity].
  - change (Py.rstrip_by sp (String c (String c' t'))
            = String c (String c' t')).
    simpl. simpl in IH. rewrite IH. reflexivity.
Qed.

Lemma lstrip_by_head sp s c t : Py.lstrip_by sp s = String c t -> sp c = false.
Proof.
  induction s as [|x s IH]; simpl; [discriminate|].
  destruct (sp x) eqn:E; [exact IH | intros [= <- _]; exact E].
Qed.

Lemma strip_idem s : Py.strip (Py.strip s) = Py.strip s.
Proof.
  unfold Py.strip. destruct (Py.lstrip_by Py.isspace s) as [|c t] eqn:E; [reflexivity|].
  apply lstrip_by_head in E. rewrite (rstrip_by_head _ c t E).
  simpl Py.lstrip_by. rewrite E. rewrite (rstrip_by_head _ c _ E), rstrip_by_idem.
  reflexivity.
Qed.

Lemma clean_phone_some o s :
  clean_phone o = Some s -> s <> EmptyString /\ Py.strip s = s.
Proof.
  unfold clean_phone, truthy.
  destruct (Py.strip match o with Some x => x | None => EmptyString end) eqn:E;
    [discriminate|].
  intros [= <-]. split; [discriminate|]. rewrite <- E. apply strip_idem.
Qed.

(** A property of rows that [end_utc] plays no part in, and that every row
    [create_booking] builds has, holds of every row the service stores. *)
Lemma reachable_rows env (P : Booking.t -> Prop) :
  (forall r v, P r -> P (Booking.set_end_utc r v)) ->
  (forall p s e db,
     dict_mem (CreateBookingIn.resource_id p) resources_dict = true ->
     P (new_row p s e db)) ->
  forall db, reachable env db -> forall r, In r db -> P r.
Proof.
  intros Hset Hnew db R. induction R as [|rq db R IH]; [intros r []|].
  destruct rq as [f t|p|i|i p]; simpl.
  - exact IH.
  - unfold post_bookings. destruct (CreateBookingIn.validate p); [|exact IH].
    destruct (create_booking_cases env p db)
      as [[e [_ E]]|[[s [e [_ [_ E]]]]|[[s [e [r [_ [_ [_ [_ [_ E]]]]]]]]|[s [e [_ [K [_ E]]]]]]]];
      rewrite E; simpl; try exact IH.
    intros r Hr. apply in_app_iff in Hr. destruct Hr as [Hr|[<-|[]]]; [now apply IH|].
    now apply Hnew.
  - unfold delete_booking. destruct (db_get i db); [|exact IH].
    simpl. intros r Hr. apply filter_In in Hr. now apply IH.
  - unfold put_booking. destruct (UpdateBookingIn.validate p); [|exact IH].
    destruct (update_booking_cases env i p db)
      as [[_ E]|[[row [x [_ [_ E]]]]|[[row [x [_ [_ [_ E]]]]]
         |[[row [x [r [_ [_ [_ [_ [_ [_ [_ E]]]]]]]]]]|[row [x [_ [_ [_ [_ E]]]]]]]]]];
      rewrite E; simpl; try exact IH.
    intros r' Hr. unfold db_set_end in Hr. apply in_map_iff in Hr.
    destruct Hr as [r [<- Hr]].
    destruct (Booking.id r =? Booking.id row); [apply Hset|]; now apply IH.
Qed.

(** X13. Every booking the service stores has a positive id and books a
    resource of [RESOURCES]. *)
Theorem reachable_rows_keys_ok env db :
  reachable env db -> forall r, In r db -> row_keys_ok r.
Proof.
  apply (reachable_rows env row_keys_ok).
  - intros r v H. exact H.
  - intros p s e db0 Hres. split; [|exact Hres].
    simpl. unfold next_id.
    assert (0 <= fold_right Z.max 0 (map Booking.id db0)).
    { induction db0 as [|x l IH]; simpl; lia. }
    lia.
Qed.

(** X14. Every booking the service stores has its name trimmed, and its
    phone, when there is one, trimmed and not empty: a phone that is blank is
    stored as no phone. *)
Theorem reachable_rows_text_ok env db :
  reachable env db -> forall r, In r db -> row_text_ok r.
Proof.
  apply (reachable_rows env row_text_ok).
  - intros r v H. exact H.
  - intros p s e db0 _. split; simpl.
    + apply strip_idem.
    + intros x Hx. now apply clean_phone_some in Hx.
Qed.

(** ** Listing after a change *)

Lemma list_rows_all env l : list_rows env None None l = mapM (booking_out env) l.
Proof.
  induction l as [|r l IH]; [reflexivity|]. cbn [list_rows mapM]. rewrite IH. reflexivity.
Qed.

Lemma mapM_snoc {A B} (f : A -> result B) l a bs b :
  mapM f l = Ok bs -> f a = Ok b -> mapM f (l ++ [a]) = Ok (bs ++ [b]).
Proof.
  revert bs. induction l as [|x l IH]; simpl; intros bs.
  - intros [= <-] ->. reflexivity.
  - destruct (f x) as [y|]; [|discriminate]. simpl.
    destruct (mapM f l) as [ys|]; [|discriminate]. simpl.
    intros [= <-] Ha. rewrite (IH ys eq_refl Ha). reflexivity.
Qed.

(** X15. A booking that was just created closes the full listing: the
    listing without bounds after the create is the listing before it followed
    by the response of the create. *)
Theorem create_booking_then_listed env payload db out db' outs :
  create_booking env payload db = (Ok out, db') ->
  list_bookings env None None db = Ok outs ->
  list_bookings env None None db' = Ok (outs ++ [out]).
Proof.
  intros H L.
  destruct (create_booking_cases env payload db)
    as [[e [_ E]]|[[s [e [_ [_ E]]]]|[[s [e [r [_ [_ [_ [_ [_ E]]]]]]]]|[s [e [_ [_ [_ E]]]]]]]];
    rewrite E in H; try discriminate.
  injection H as B <-. unfold list_bookings in *. simpl in *.
  rewrite list_rows_all in *. now apply mapM_snoc.
Qed.

(** X16. A deleted booking is in no listing: whatever the bounds, the ids
    listed after the delete do not include the deleted one. *)
Theorem delete_booking_then_unlisted env booking_id db msg db' from_ to outs :
  delete_booking booking_id db = (Ok msg, db') ->
  list_bookings env from_ to db' = Ok outs ->
  ~ In booking_id (map BookingOut.id outs).
Proof.
  intros D L Hin.
  pose proof (delete_booking_gone booking_id db msg db' D) as N.
  unfold list_bookings in L.
  destruct (bound_ts env from_) as [X|]; [|discriminate].
  destruct (bound_ts env to) as [Y|]; [|discriminate]. simpl in L.
  rewrite list_rows_filter in L. apply mapM_booking_out_ids in L.
  rewrite L in Hin. apply in_map_iff in Hin. destruct Hin as [r [Hid Hr]].
  apply filter_In in Hr. destruct Hr as [Hr _].
  apply (proj1 (db_get_none booking_id db') N r Hr Hid).
Qed.

(** ** Reading the date and the time *)

Lemma Z_range_forallb (f : Z -> bool) (N : Z) :
  forallb f (map Z.of_nat (seq 0 (Z.to_nat N))) = true ->
  forall n, 0 <= n < N -> f n = true.
Proof.
  intros H n Hn. rewrite forallb_forall in H. apply H.
  apply in_map_iff. exists (Z.to_nat n). split; [lia|].
  apply in_seq. lia.
Qed.

Lemma two_digits_all n : 0 <= n <= 99 -> two_digits_ok n = true.
Proof.
  intros H. apply (Z_range_forallb two_digits_ok 100); [vm_compute; reflexivity | lia].
Qed.

Lemma four_digits_all n : 0 <= n <= 9999 -> four_digits_ok n = true.
Proof.
  intros H. apply (Z_range_forallb four_digits_ok 10000); [vm_compute; reflexivity | lia].
Qed.

Lemma split_single sep s :
  match Py.split sep s with [f] => String.eqb f s | _ => false end = true ->
  Py.split sep s = [s].
Proof.
  destruct (Py.split sep s) as [|f [|g l]]; try discriminate.
  intros H. apply String.eqb_eq in H. now subst.
Qed.

Lemma int_back s n :
  match Py.int s with Some v => v =? n | None => false end = true -> Py.int s = Some n.
Proof.
  destruct (Py.int s) as [v|]; [|discriminate].
  intros H. apply Z.eqb_eq in H. now subst.
Qed.

(** A field without the separator, then the separator: [split] cuts there. *)
Lemma split_append sep a b :
  Py.split sep a = [a] -> Py.split sep (a ++ String sep b) = a :: Py.split sep b.
Proof.
  induction a as [|c t IH]; simpl.
  - intros _. rewrite Ascii.eqb_refl. reflexivity.
  - destruct (Ascii.eqb c sep); [discriminate|].
    destruct (Py.split sep t) as [|f fs] eqn:E.
    + intros [= <-]. simpl in E. discriminate.
    + intros [= -> ->]. rewrite (IH eq_refl). reflexivity.
Qed.

Lemma split_concat sep a b :
  Py.split sep a = [a] ->
  Py.split sep (a ++ (String sep EmptyString ++ b)) = a :: Py.split sep b.
Proof.
  exact (split_append sep a b).
Qed.

(** X17. A date written [YYYY-MM-DD] and a time written [HH:MM] are read back
    as the numbers written, so such a request is never answered with the 400
    that asks for these layouts. *)
Theorem parse_date_time_reads_layout env payload db y m d hh mm :
  0 <= y <= 9999 -> 0 <= m <= 99 -> 0 <= d <= 99 -> 0 <= hh <= 99 -> 0 <= mm <= 99 ->
  CreateBookingIn.date payload = date_text y m d ->
  CreateBookingIn.start_time payload = time_text hh mm ->
  parse_date_time payload = Ok (y, m, d, hh, mm)
  /\ fst (create_booking env payload db) <> Raise BadDateTime.
Proof.
  intros Hy Hm Hd Hh Hi Ed Et.
  pose proof (four_digits_all y Hy) as Fy. pose proof (two_digits_all m Hm) as Fm.
  pose proof (two_digits_all d Hd) as Fd. pose proof (two_digits_all hh Hh) as Fh.
  pose proof (two_digits_all mm Hi) as Fi.
  unfold four_digits_ok in Fy. unfold two_digits_ok in Fm, Fd, Fh, Fi.
  repeat match goal with H : _ && _ = true |- _ => apply andb_true_iff in H; destruct H end.
  repeat match goal with
         | H : match Py.int _ with Some _ => _ | None => _ end = true |- _ =>
             apply int_back in H
         | H : match Py.split _ _ with [] => _ | _ :: _ => _ end = true |- _ =>
             apply split_single in H
         end.
  assert (P : parse_date_time payload = Ok (y, m, d, hh, mm)).
  { unfold parse_date_time. rewrite Ed, Et. unfold date_text, time_text.
    cbn [String.concat].
    rewrite !split_concat by assumption.
    repeat match goal with H : Py.split _ _ = _ |- _ => rewrite H end.
    cbn [map].
    repeat match goal with H : Py.int _ = _ |- _ => rewrite H end.
    reflexivity. }
  split; [exact P|].
  unfold create_booking, start_end_ts. rewrite P. cbn [bind].
  unfold Datetime.add_seconds, dt_local_to_epoch.
  destruct (Datetime.datetime y m d hh mm) as [w|]; cbn [bind unhandled fst];
    [|discriminate].
  repeat match goal with |- context [if ?b then _ else _] => destruct b; cbn [bind unhandled fst] end;
    try discriminate.
  destruct (booking_out env _) as [o|err] eqn:B; [discriminate|].
  apply booking_out_raises in B. subst err. discriminate.
Qed.

(** ** Local time there and back *)

(** X18. Outside a skipped or repeated hour the two time helpers undo each
    other: when the zone has, at the instant [dt_local_to_epoch] gives, the
    offset it has on the wall clock, [epoch_to_local_iso] writes the wall
    clock reading that went in. *)
Theorem epoch_to_local_iso_of_local env w ts :
  Datetime.in_range w = true ->
  dt_local_to_epoch env w = Ok ts ->
  fromutc_offset (LOCAL_TZ env) ts = utcoffset (LOCAL_TZ env) w ->
  epoch_to_local_iso env ts = Ok (Datetime.isoformat w (utcoffset (LOCAL_TZ env) w)).
Proof.
  intros Hw H Hoff. unfold dt_local_to_epoch in H.
  destruct (Datetime.in_range (w - utcoffset (LOCAL_TZ env) w)) eqn:R; [|discriminate].
  injection H as <-. unfold epoch_to_local_iso. rewrite Hoff, R.
  replace (w - utcoffset (LOCAL_TZ env) w + utcoffset (LOCAL_TZ env) w) with w by lia.
  rewrite Hw. reflexivity.
Qed.

(** ** The further properties on the worked day *)

Lemma two_bookings_reachable : reachable Copenhagen.env Scenario.two_bookings.
Proof.
  exact (reachable_serve Copenhagen.env (POST_bookings Scenario.post_bo) _
           (reachable_serve Copenhagen.env (POST_bookings Scenario.post_ann) _
              (reachable_empty Copenhagen.env))).
Qed.

Lemma utc_fixed_offset : fixed_offset Utc.env.
Proof.
  intros w w'. reflexivity.
Qed.

Lemma utc_ann_reachable : reachable Utc.env [ScenarioUtc.ann].
Proof.
  exact (reachable_serve Utc.env (POST_bookings Scenario.post_ann) _
           (reachable_empty Utc.env)).
Qed.

Lemma delete_booking_then_not_found_witness :
  db_get 1 [Scenario.bo] = None
  /\ delete_booking 1 [Scenario.bo] = (Raise NotFound, [Scenario.bo])
  /\ (forall payload,
        update_booking Copenhagen.env 1 payload [Scenario.bo]
        = (Raise NotFound, [Scenario.bo])).
Proof.
  exact (delete_booking_then_not_found Copenhagen.env 1 Scenario.two_bookings
           "ok" [Scenario.bo] eq_refl).
Defined.

Lemma delete_booking_keeps_others_witness :
  (forall j, j <> 1 -> db_get j [Scenario.bo] = db_get j Scenario.two_bookings)
  /\ (forall r, In r [Scenario.bo] <-> In r Scenario.two_bookings /\ Booking.id r <> 1)
  /\ (List.length [Scenario.bo] < List.length Scenario.two_bookings)%nat.
Proof.
  exact (delete_booking_keeps_others 1 Scenario.two_bookings "ok" [Scenario.bo] eq_refl).
Defined.

Lemma create_booking_then_get_witness :
  exists row,
    db_get (BookingOut.id Scenario.bo_out) Scenario.two_bookings = Some row
    /\ db_get (BookingOut.id Scenario.bo_out) [Scenario.ann] = None
    /\ (forall j, j <> BookingOut.id Scenario.bo_out ->
          db_get j Scenario.two_bookings = db_get j [Scenario.ann])
    /\ Booking.id row = BookingOut.id Scenario.bo_out
    /\ Booking.resource_id row = CreateBookingIn.resource_id Scenario.post_bo
    /\ Booking.name row = Py.strip (CreateBookingIn.name Scenario.post_bo)
    /\ Booking.phone row = clean_phone (CreateBookingIn.phone Scenario.post_bo)
    /\ booking_out Copenhagen.env row = Ok Scenario.bo_out.
Proof.
  exact (create_booking_then_get Copenhagen.env Scenario.post_bo [Scenario.ann]
           Scenario.bo_out Scenario.two_bookings eq_refl).
Defined.

Lemma create_booking_overlap_iff_witness :
  fst (create_booking Copenhagen.env Scenario.post_bo Scenario.two_bookings)
  = Raise OverlapOnCreate.
Proof.
  apply (proj2 (create_booking_overlap_iff Copenhagen.env Scenario.post_bo
                  Scenario.two_bookings)).
  exists 1735725600, 1735727400, Scenario.bo.
  split; [reflexivity | split; [reflexivity | split; [right; left; reflexivity|]]].
  split; [reflexivity | simpl; lia].
Defined.

Lemma refused_request_changes_nothing_witness :
  post_bookings Copenhagen.env Scenario.post_bo Scenario.two_bookings
  = (Raise OverlapOnCreate, Scenario.two_bookings)
  /\ Scenario.two_bookings = Scenario.two_bookings.
Proof.
  split; [reflexivity|].
  apply (proj1 (refused_request_changes_nothing Copenhagen.env) Scenario.post_bo
           Scenario.two_bookings OverlapOnCreate Scenario.two_bookings).
  - reflexivity.
  - discriminate.
Defined.

Lemma update_booking_then_get_witness :
  exists row new_end,
    db_get 2 Scenario.two_bookings = Some row
    /\ new_end_ts Copenhagen.env ScenarioOut.extend_30 row = Ok new_end
    /\ Booking.start_utc row < new_end
    /\ db_get 2 [Scenario.ann; ScenarioOut.bo_longer]
       = Some (Booking.set_end_utc row new_end)
    /\ (forall j, j <> 2 ->
          db_get j [Scenario.ann; ScenarioOut.bo_longer] = db_get j Scenario.two_bookings)
    /\ booking_out Copenhagen.env (Booking.set_end_utc row new_end)
       = Ok Scenario.bo_longer_out.
Proof.
  exact (update_booking_then_get Copenhagen.env 2 ScenarioOut.extend_30
           Scenario.two_bookings Scenario.bo_longer_out
           [Scenario.ann; ScenarioOut.bo_longer] eq_refl).
Defined.

Lemma put_booking_add_minutes_moves_later_witness :
  new_end_ts Copenhagen.env ScenarioOut.extend_30 Scenario.bo
  = Ok (Booking.end_utc Scenario.bo + 30 * 60)
  /\ Booking.end_utc Scenario.bo < Booking.end_utc Scenario.bo + 30 * 60
  /\ fst (put_booking Copenhagen.env 2 ScenarioOut.extend_30 Scenario.two_bookings)
     <> Raise InvalidInterval.
Proof.
  apply (put_booking_add_minutes_moves_later Copenhagen.env 2 ScenarioOut.extend_30
           Scenario.two_bookings Scenario.bo 30).
  - reflexivity.
  - reflexivity.
  - reflexivity.
  - simpl. lia.
Defined.

Lemma update_booking_shorter_never_conflicts_witness :
  update_booking Copenhagen.env 2 ScenarioOut.end_1115 Scenario.two_bookings
  = (booking_out Copenhagen.env (Booking.set_end_utc Scenario.bo 1735726500),
     db_set_end Scenario.bo 1735726500 Scenario.two_bookings).
Proof.
  apply (update_booking_shorter_never_conflicts Copenhagen.env 2 ScenarioOut.end_1115
           Scenario.two_bookings Scenario.bo 1735726500).
  - exact (proj2 (reachable_inv Copenhagen.env _ two_bookings_reachable)).
  - reflexivity.
  - reflexivity.
  - simpl. lia.
  - simpl. lia.
Defined.

Lemma create_booking_repeat_refused_witness :
  create_booking Copenhagen.env Scenario.post_bo Scenario.two_bookings
  = (Raise OverlapOnCreate, Scenario.two_bookings).
Proof.
  apply (create_booking_repeat_refused Copenhagen.env Scenario.post_bo [Scenario.ann]
           Scenario.bo_out Scenario.two_bookings 1735725600 1735727400).
  - reflexivity.
  - reflexivity.
  - lia.
Defined.

Lemma validation_error_iff_witness :
  fst (post_bookings Copenhagen.env
         (CreateBookingIn.mk 1 "Ann" None "2025-01-01" "10:00" 10) Scenario.two_bookings)
  = Raise RequestValidationError.
Proof.
  apply (proj2 (proj1 (validation_error_iff Copenhagen.env Scenario.two_bookings)
                  (CreateBookingIn.mk 1 "Ann" None "2025-01-01" "10:00" 10))).
  left. simpl. lia.
Defined.

Lemma post_bookings_duration_fixed_offset_witness :
  exists row,
    [ScenarioUtc.ann] = [] ++ [row]
    /\ Booking.end_utc row
       = Booking.start_utc row + CreateBookingIn.duration_minutes Scenario.post_ann * 60
    /\ 900 <= Booking.end_utc row - Booking.start_utc row <= 28800.
Proof.
  exact (post_bookings_duration_fixed_offset Utc.env Scenario.post_ann []
           ScenarioUtc.ann_out [ScenarioUtc.ann] utc_fixed_offset eq_refl).
Defined.

Lemma reachable_proper_fixed_offset_witness :
  reachable Utc.env [ScenarioUtc.ann]
  /\ Booking.start_utc ScenarioUtc.ann < Booking.end_utc ScenarioUtc.ann.
Proof.
  split; [exact utc_ann_reachable|].
  apply (reachable_proper_fixed_offset Utc.env [ScenarioUtc.ann]
           utc_fixed_offset utc_ann_reachable).
  left. reflexivity.
Defined.

Lemma reachable_rows_keys_ok_witness :
  reachable Copenhagen.env Scenario.two_bookings /\ row_keys_ok Scenario.bo.
Proof.
  split; [exact two_bookings_reachable|].
  apply (reachable_rows_keys_ok Copenhagen.env Scenario.two_bookings two_bookings_reachable).
  right. left. reflexivity.
Defined.

Lemma reachable_rows_text_ok_witness :
  reachable Copenhagen.env Scenario.two_bookings /\ row_text_ok Scenario.bo.
Proof.
  split; [exact two_bookings_reachable|].
  apply (reachable_rows_text_ok Copenhagen.env Scenario.two_bookings two_bookings_reachable).
  right. left. reflexivity.
Defined.

Lemma create_booking_then_listed_witness :
  list_bookings Copenhagen.env None None Scenario.two_bookings
  = Ok ([ScenarioOut.ann_out] ++ [Scenario.bo_out]).
Proof.
  exact (create_booking_then_listed Copenhagen.env Scenario.post_bo [Scenario.ann]
           Scenario.bo_out Scenario.two_bookings [ScenarioOut.ann_out] eq_refl eq_refl).
Defined.

Lemma delete_booking_then_unlisted_witness :
  list_bookings Copenhagen.env None None [Scenario.bo] = Ok [Scenario.bo_out]
  /\ ~ In 1 (map BookingOut.id [Scenario.bo_out]).
Proof.
  split; [reflexivity|].
  exact (delete_booking_then_unlisted Copenhagen.env 1 Scenario.two_bookings "ok"
           [Scenario.bo] None None [Scenario.bo_out] eq_refl eq_refl).
Defined.

Lemma parse_date_time_reads_layout_witness :
  parse_date_time Scenario.post_bo = Ok (2025, 1, 1, 11, 0)
  /\ fst (create_booking Copenhagen.env Scenario.post_bo Scenario.two_bookings)
     <> Raise BadDateTime.
Proof.
  apply (parse_date_time_reads_layout Copenhagen.env Scenario.post_bo
           Scenario.two_bookings 2025 1 1 11 0); try lia; reflexivity.
Defined.

Lemma epoch_to_local_iso_of_local_witness :
  epoch_to_local_iso Copenhagen.env 1735722000 = Ok "2025-01-01T10:00:00+01:00".
Proof.
  apply (epoch_to_local_iso_of_local Copenhagen.env 1735725600 1735722000);
    reflexivity.
Defined.

(** ** Exact conditions of two more refusals *)

(** X20. [create_booking] answers 404 "Unknown resource_id" exactly when the
    date and time are read and converted and the resource is not one of
    [RESOURCES]; a resource of the catalog is never reported unknown. *)
Theorem unknown_resource_iff env payload db :
  fst (create_booking env payload db) = Raise UnknownResource
  <-> (exists start_ts end_ts, start_end_ts env payload = Ok (start_ts, end_ts))
      /\ dict_mem (CreateBookingIn.resource_id payload) resources_dict = false.
Proof.
  split.
  - intros H.
    destruct (create_booking_cases env payload db)
      as [[e [T E]]|[[s [e [T [R E]]]]|[[s [e [r [_ [_ [_ [_ [_ E]]]]]]]]|[s [e [_ [_ [_ E]]]]]]]];
      rewrite E in H; simpl in H.
    + injection H as ->. apply start_end_ts_raises in T. destruct T; discriminate.
    + split; [exists s, e; exact T | exact R].
    + discriminate.
    + destruct (booking_out env (new_row payload s e db)) as [o|err] eqn:B; [discriminate|].
      apply booking_out_raises in B. subst err. discriminate.
  - intros [[s [e T]] R]. unfold create_booking. rewrite T, R. reflexivity.
Qed.

(** X21. [update_booking] answers 409 "Extension overlaps another booking"
    exactly when the booking exists, its new end is computed and lies after
    its start, and a booking of the same resource under another id overlaps
    the stretched interval; the booking never stands in its own way. *)
Theorem update_booking_overlap_iff env booking_id payload db :
  fst (update_booking env booking_id payload db) = Raise OverlapOnExtend
  <-> exists row new_end r,
        db_get booking_id db = Some row
        /\ new_end_ts env payload row = Ok new_end
        /\ Booking.start_utc row < new_end
        /\ In r db
        /\ Booking.resource_id r = Booking.resource_id row
        /\ Booking.id r <> Booking.id row
        /\ Booking.start_utc row < Booking.end_utc r
        /\ new_end > Booking.start_utc r.
Proof.
  split.
  - intros H.
    destruct (update_booking_cases env booking_id payload db)
      as [[_ E]|[[row [x [_ [N E]]]]|[[row [x [_ [_ [_ E]]]]]
         |[[row [x [r [G [N [L [I [K1 [K2 [O E]]]]]]]]]]|[row [x [_ [_ [_ [_ E]]]]]]]]]];
      rewrite E in H; simpl in H; try discriminate.
    + injection H as ->. apply new_end_ts_raises in N. destruct N; discriminate.
    + apply overlap_spec in O. exists row, x, r. tauto.
    + destruct (booking_out env (Booking.set_end_utc row x)) as [o|err] eqn:B;
        [discriminate|].
      apply booking_out_raises in B. subst err. discriminate.
  - intros [row [ne [r [G [N [L [I [K1 [K2 [O1 O2]]]]]]]]]].
    unfold update_booking. rewrite G, N.
    destruct (ne <=? Booking.start_utc row) eqn:Le; [apply Z.leb_le in Le; lia|].
    rewrite (scan_hit _ _ _ db r I); [reflexivity | |].
    + apply andb_true_iff. split; [now apply Z.eqb_eq|].
      apply negb_true_iff. now apply Z.eqb_neq.
    + apply overlap_spec. split; assumption.
Qed.

(** ** The length of a created booking *)

(** X22. The stored length of a created booking is the length asked for
    minus the change of the zone's offset between the wall-clock start and
    the wall-clock end: across a change of offset it is not
    [duration_minutes] minutes. *)
Theorem start_end_ts_length env payload start_ts end_ts :
  start_end_ts env payload = Ok (start_ts, end_ts) ->
  exists start_local,
    start_ts = start_local - utcoffset (LOCAL_TZ env) start_local
    /\ end_ts - start_ts
       = CreateBookingIn.duration_minutes payload * 60
         - (utcoffset (LOCAL_TZ env)
              (start_local + CreateBookingIn.duration_minutes payload * 60)
            - utcoffset (LOCAL_TZ env) start_local).
Proof.
  unfold start_end_ts.
  destruct (parse_date_time payload) as [[[[[y m] d] sh] sm]|]; [|discriminate].
  cbn [bind]. destruct (Datetime.datetime y m d sh sm) as [w|]; [|discriminate].
  cbn [bind unhandled]. unfold Datetime.add_seconds.
  destruct (Datetime.in_range (w + _)); [|discriminate].
  cbn [bind unhandled]. unfold dt_local_to_epoch.
  destruct (Datetime.in_range (w - _)); [|discriminate]. cbn [bind].
  destruct (Datetime.in_range (w + _ - _)); [|discriminate]. cbn [bind].
  intros [= <- <-]. exists w. split; [reflexivity | lia].
Qed.

Lemma unknown_resource_iff_witness :
  fst (create_booking Copenhagen.env Scenario.post_nowhere Scenario.two_bookings)
  = Raise UnknownResource.
Proof.
  apply (proj2 (unknown_resource_iff Copenhagen.env Scenario.post_nowhere
                  Scenario.two_bookings)).
  split; [exists 1735722000, 1735725600; reflexivity | reflexivity].
Defined.

Lemma update_booking_overlap_iff_witness :
  fst (update_booking Copenhagen.env 1 ScenarioOut.extend_30 Scenario.two_bookings)
  = Raise OverlapOnExtend.
Proof.
  apply (proj2 (update_booking_overlap_iff Copenhagen.env 1 ScenarioOut.extend_30
                  Scenario.two_bookings)).
  exists Scenario.ann, 1735727400, Scenario.bo.
  split; [reflexivity | split; [reflexivity | split; [simpl; lia|]]].
  split; [right; left; reflexivity | split; [reflexivity|]].
  simpl. lia.
Defined.

Lemma start_end_ts_length_witness :
  exists start_local,
    1743298200 = start_local - utcoffset (LOCAL_TZ Copenhagen.env) start_local
    /\ 1743297300 - 1743298200
       = 45 * 60
         - (utcoffset (LOCAL_TZ Copenhagen.env) (start_local + 45 * 60)
            - utcoffset (LOCAL_TZ Copenhagen.env) start_local).
Proof.
  exact (start_end_ts_length Copenhagen.env
           (CreateBookingIn.mk 1 "Gry" None "2025-03-30" "02:30" 45)
           1743298200 1743297300 eq_refl).
Defined.
